(** * Nattramn: the request-handling pipeline of [src/deps.ts]

    A shallow embedding of the page server: route matching with named
    placeholders, template splitting at the router markers, assembly of
    the page response, static resolution, and the finalisation of a
    response (ETag, Cache-Control, compression, Content-Length).

    Strings are sequences of code units; the development works with the
    code units 0..255 ([ascii]), on which the source's string operations
    (split, includes, indexOf, the two regular expressions) act unit by
    unit.  Byte sequences ([Uint8Array]) are lists of [byte].  An
    undefined or null value is [None].

    Asynchronous functions are computations that may throw and that write
    responses on the connection of the request at hand.  What the source
    imports (the path library, the hash, the two encoders, the network
    and the file system) is gathered in the class [Platform]; the parsing
    of the request URL is left to the platform as well, a request carries
    its parsed URL. *)

From Stdlib Require Import ZArith Strings.Ascii Strings.String Strings.Byte DecimalString.
From stdpp Require Import base tactics option list gmap strings.

Local Open Scope Z_scope.
Local Open Scope nat_scope.

(** ** The string methods the source calls *)

Module JSString.

(** [s.startsWith(p)]: the comparison every search below is built on. *)
Fixpoint startsWith (p s : string) : bool :=
  match p, s with
  | EmptyString, _ => true
  | String a p', String b s' => if decide (a = b) then startsWith p' s' else false
  | String _ _, EmptyString => false
  end.

(** [s.includes(sub)] *)
Fixpoint includes (sub s : string) : bool :=
  startsWith sub s ||
  match s with
  | EmptyString => false
  | String _ s' => includes sub s'
  end.

(** [s.indexOf(sub)]: the first position where [sub] occurs, or [-1]. *)
Fixpoint indexOf_from (sub s : string) (pos : Z) : Z :=
  if startsWith sub s then pos
  else match s with
       | EmptyString => (-1)%Z
       | String _ s' => indexOf_from sub s' (pos + 1)%Z
       end.

Definition indexOf (sub s : string) : Z := indexOf_from sub s 0%Z.

(** [s.split(sep)] for a separator string.  The result lists the pieces
    between the non-overlapping occurrences of [sep], found from the
    left.  [split_from sep skip s] still has [skip] code units of the
    separator it has just recognised to pass over; the head of its
    result is the piece under construction. *)
Fixpoint split_from (sep : string) (skip : nat) (s : string) : list string :=
  match s with
  | EmptyString => [EmptyString]
  | String c s' =>
      match skip with
      | S k => split_from sep k s'
      | O =>
          if startsWith sep s
          then EmptyString :: split_from sep (String.length sep - 1) s'
          else match split_from sep 0 s' with
               | piece :: rest => String c piece :: rest
               | [] => [String c EmptyString]
               end
      end
  end.

(** With the empty separator the string falls apart into its code units. *)
Fixpoint units (s : string) : list string :=
  match s with
  | EmptyString => []
  | String c s' => String c EmptyString :: units s'
  end.

Definition split (sep s : string) : list string :=
  match sep with
  | EmptyString => units s
  | String _ _ => split_from sep 0 s
  end.

(** [arr.join(sep)] on an array whose elements may be [undefined]:
    an undefined element is rendered as the empty string. *)
Definition render (x : option string) : string := default EmptyString x.

Fixpoint join (sep : string) (arr : list (option string)) : string :=
  match arr with
  | [] => EmptyString
  | [x] => render x
  | x :: rest => render x +:+ sep +:+ join sep rest
  end.

(** Truthiness of a value that is a string or [undefined]/[null]. *)
Definition truthy (x : option string) : bool :=
  match x with
  | Some (String _ _) => true
  | _ => false
  end.

End JSString.

Import JSString.

(** ** Results of asynchronous calls: a value, or a thrown error *)

Inductive outcome (A : Type) : Type :=
  | Returned (a : A)
  | Thrown (e : string).
Arguments Returned {A} a.
Arguments Thrown {A} e.

(** ** Header sets

    A [Headers] object stores its names in lower case, so that lookups
    ignore the case of the name. *)

Module Headers.

Definition lower_unit (c : ascii) : ascii :=
  let n := nat_of_ascii c in
  if (65 <=? n) && (n <=? 90) then ascii_of_nat (n + 32) else c.

Fixpoint toLowerCase (s : string) : string :=
  match s with
  | EmptyString => EmptyString
  | String c s' => String (lower_unit c) (toLowerCase s')
  end.

Definition get (name : string) (h : gmap string string) : option string :=
  h !! toLowerCase name.

Definition set (name value : string) (h : gmap string string) : gmap string string :=
  <[toLowerCase name := value]> h.

(** [new Headers(init)]: a copy of [init], empty when [init] is undefined. *)
Definition new (init : option (gmap string string)) : gmap string string :=
  default ∅ init.

End Headers.

(** ** Data model *)

(** The result of [reqToURL]: the parts of the parsed request URL that the
    pipeline reads. *)
Record URL : Type := {
  pathname : string;
  searchParams : list (string * string)
}.

Definition searchParams_get (name : string) (u : URL) : option string :=
  snd <$> List.find (fun kv => bool_decide (fst kv = name)) (searchParams u).

(** A request: its URL, as the platform parses [req.url] against the local
    address, and its headers. *)
Record ServerRequest : Type := {
  req_url : URL;
  req_headers : gmap string string
}.

Record PageData : Type := {
  head : option string;
  body : string;
  pd_headers : option (gmap string string)
}.

(** A handler may throw, or return no page data at all. *)
Definition PageHandlerCallback : Type :=
  ServerRequest -> gmap string (option string) -> outcome (option PageData).

Record Page : Type := {
  route : string;
  template : string;
  handler : PageHandlerCallback
}.

Record RouterConfig : Type := { pages : list Page }.

Inductive CompressionMethod : Type := Gzip | Brotli | None_.

Definition CompressionMethod_value (m : CompressionMethod) : string :=
  match m with
  | Gzip => "gzip"
  | Brotli => "br"
  | None_ => "none"
  end.

Record ServerConfig : Type := {
  compression : option CompressionMethod;
  cfg_serveStatic : option string
}.

Record Config : Type := {
  server : ServerConfig;
  router : RouterConfig
}.

Record PartialResponse : Type := {
  pr_status : nat;
  pr_body : list byte;
  pr_headers : gmap string string
}.

(** What [req.respond] is given: every field is optional, and the body is
    either a string or bytes. *)
Inductive BodyInit : Type :=
  | BodyString (s : string)
  | BodyBytes (b : list byte).

Record Response : Type := {
  resp_status : option nat;
  resp_headers : option (gmap string string);
  resp_body : option BodyInit
}.

(** The status line the server library writes for a response: a missing
    (or zero) status is sent as 200. *)
Definition statusCode (r : Response) : nat :=
  match resp_status r with
  | Some (S n) => S n
  | _ => 200
  end.

(** ** The platform

    Library and runtime functions the source imports: they are taken as
    given.  [String_match s pattern] tells whether [s.match(pattern)] is
    non-null, and throws where the pattern is no regular expression; the
    empty pattern matches every string (at index 0). *)
Class Platform : Type := {
  extname : string -> string;
  String_match : string -> string -> outcome bool;
  String_match_empty : forall s, String_match s "" = Returned true;
  Sha1_hex : list byte -> string;
  gzipEncode : list byte -> list byte;
  brotliEncode : list byte -> list byte;
  fetch_arrayBuffer : string -> outcome (list byte);
  Deno_readFile : string -> outcome (list byte)
}.

(** ** Asynchronous code that responds on the request's connection

    The state is the list of responses written so far for the request,
    oldest first; an error thrown keeps what has been written. *)
Definition Async (A : Type) : Type := list Response -> outcome A * list Response.

Definition ret {A} (a : A) : Async A := fun w => (Returned a, w).
Definition throw {A} (e : string) : Async A := fun w => (Thrown e, w).
Definition bind {A B} (m : Async A) (k : A -> Async B) : Async B :=
  fun w => match m w with
           | (Returned a, w') => k a w'
           | (Thrown e, w') => (Thrown e, w')
           end.
Definition await {A} (o : outcome A) : Async A := fun w => (o, w).
Definition respond (r : Response) : Async unit := fun w => (Returned tt, w ++ [r]).
Definition try_catch {A} (m : Async A) (h : string -> Async A) : Async A :=
  fun w => match m w with
           | (Returned a, w') => (Returned a, w')
           | (Thrown e, w') => h e w'
           end.

Notation "'let*' x := m 'in' k" := (bind m (fun x => k))
  (at level 10, x name, m at level 100, k at level 200).
Notation "m ';;' k" := (bind m (fun _ => k))
  (at level 100, k at level 200, right associativity).

(** ** Media types *)

Definition MEDIA_TYPES : list (string * string) :=
  [ (".md", "text/markdown");
    (".css", "text/css");
    (".html", "text/html");
    (".htm", "text/html");
    (".json", "application/json");
    (".map", "application/json");
    (".txt", "text/plain");
    (".ts", "text/typescript");
    (".tsx", "text/tsx");
    (".js", "application/javascript");
    (".jsx", "text/jsx");
    (".gz", "application/gzip");
    (".webp", "image/webp");
    (".jpg", "image/jpeg");
    (".png", "image/png");
    (".svg", "mage/svg+xml") ].

Definition getContentType `{Platform} (path : string) : option string :=
  snd <$> List.find (fun kv => bool_decide (fst kv = extname path)) MEDIA_TYPES.

(** ** Template splitting *)

Definition generatePreContent (template : string) (answerWithPartialContent : bool)
  : option string :=
  if answerWithPartialContent then None
  else if negb (indexOf "<nattramn-router>" template =? -1)%Z
       then split "<nattramn-router>" template !! 0
       else Some template.

Definition generatePostContent (template : string) (answerWithPartialContent : bool)
  : option string :=
  if answerWithPartialContent then None
  else if negb (indexOf "</nattramn-router>" template =? -1)%Z
       then split "</nattramn-router>" template !! 1
       else Some template.

(** ** Route matching *)

Definition reqToURL (req : ServerRequest) : URL := req_url req.

Definition canHandleRoute (req : ServerRequest) (route : string) : bool :=
  let reqUrl := pathname (reqToURL req) in
  let requestURL := split "/" reqUrl in
  let routeURL := split "/" route in
  let matches :=
    filter (fun b : bool => b)
      (imap (fun index value =>
               if includes ":" value then true
               else bool_decide (requestURL !! index = Some value))
            routeURL) in
  bool_decide (length matches = length routeURL)
  && bool_decide (length matches = length requestURL).

(** [arr.reduce(f, init)] with the index passed to [f]. *)
Fixpoint reduce_from {A B} (f : B -> A -> nat -> B) (i : nat) (acc : B) (arr : list A) : B :=
  match arr with
  | [] => acc
  | x :: rest => reduce_from f (S i) (f acc x i) rest
  end.

Definition reduce {A B} (f : B -> A -> nat -> B) (init : B) (arr : list A) : B :=
  reduce_from f 0 init arr.

(** The name a pattern segment declares: [curr.split(':')[1]]. *)
Definition keyname (curr : string) : option string :=
  if includes ":" curr then split ":" curr !! 1 else None.

(** An entry's value is [requestURL[i]], which is undefined ([None]) when
    the request path has no segment there. *)
Definition routeParams (req : ServerRequest) (route : string) : gmap string (option string) :=
  let requestURL := split "/" (pathname (reqToURL req)) in
  let routeURL := split "/" route in
  reduce (fun acc curr i =>
            if truthy (keyname curr)
            then <[default EmptyString (keyname curr) := requestURL !! i]> acc
            else acc)
         ∅ routeURL.

(** ** Encoders of the runtime: TextEncoder, JSON.stringify,
       encodeURIComponent, unescape, btoa *)

Module Encoding.

(** The UTF-8 bytes of one code unit below 256. *)
Definition utf8_unit (c : ascii) : list N :=
  let n := N_of_ascii c in
  if (n <? 128)%N then [n]
  else [(192 + n / 64)%N; (128 + n mod 64)%N].

Fixpoint utf8 (s : string) : list N :=
  match s with
  | EmptyString => []
  | String c s' => utf8_unit c ++ utf8 s'
  end.

(** [new TextEncoder().encode(s)] *)
Definition TextEncoder_encode (s : string) : list byte :=
  (fun n => byte_of_ascii (ascii_of_N n)) <$> utf8 s.

Definition hex_upper : string := "0123456789ABCDEF".
Definition hex_lower : string := "0123456789abcdef".

Definition digit (alphabet : string) (n : N) : ascii :=
  default "?"%char (String.get (N.to_nat n) alphabet).

Definition quote : ascii := "034"%char.
Definition backslash : ascii := "092"%char.

(** [QuoteJSONString] on one code unit. *)
Definition quote_unit (c : ascii) : string :=
  let n := N_of_ascii c in
  if (n =? 8)%N then String backslash "b"
  else if (n =? 9)%N then String backslash "t"
  else if (n =? 10)%N then String backslash "n"
  else if (n =? 12)%N then String backslash "f"
  else if (n =? 13)%N then String backslash "r"
  else if (n =? 34)%N then String backslash (String quote EmptyString)
  else if (n =? 92)%N then String backslash (String backslash EmptyString)
  else if (n <? 32)%N
       then String backslash
              ("u00" +:+ String (digit hex_lower (n / 16)) (String (digit hex_lower (n mod 16)) EmptyString))
  else String c EmptyString.

Fixpoint quote_units (s : string) : string :=
  match s with
  | EmptyString => EmptyString
  | String c s' => quote_unit c +:+ quote_units s'
  end.

Definition QuoteJSONString (s : string) : string :=
  String quote (quote_units s +:+ String quote EmptyString).

(** [JSON.stringify({ title })] *)
Definition JSON_stringify_title (title : string) : string :=
  "{" +:+ QuoteJSONString "title" +:+ ":" +:+ QuoteJSONString title +:+ "}".

(** [encodeURIComponent]: the unreserved code units stand for themselves,
    every other one is written as the [%XX] escapes of its UTF-8 bytes. *)
Definition unreserved (c : ascii) : bool :=
  let n := N_of_ascii c in
  ((65 <=? n) && (n <=? 90) || (97 <=? n) && (n <=? 122) || (48 <=? n) && (n <=? 57))%N
  || includes (String c EmptyString) "-_.!~*'()".

Definition percent (n : N) : string :=
  String "%"%char (String (digit hex_upper (n / 16)) (String (digit hex_upper (n mod 16)) EmptyString)).

Fixpoint concat_strings (l : list string) : string :=
  match l with
  | [] => EmptyString
  | s :: rest => s +:+ concat_strings rest
  end.

Definition encode_unit (c : ascii) : string :=
  if unreserved c then String c EmptyString
  else concat_strings (percent <$> utf8_unit c).

Fixpoint encodeURIComponent (s : string) : string :=
  match s with
  | EmptyString => EmptyString
  | String c s' => encode_unit c +:+ encodeURIComponent s'
  end.

(** [unescape]: [%uXXXX] and [%XX] are replaced by the code unit they
    name; the result may hold code units above 255, so it is a list of
    numbers. *)
Definition hex_value (c : ascii) : option N :=
  let n := N_of_ascii c in
  if ((48 <=? n) && (n <=? 57))%N then Some (n - 48)%N
  else if ((65 <=? n) && (n <=? 70))%N then Some (n - 55)%N
  else if ((97 <=? n) && (n <=? 102))%N then Some (n - 87)%N
  else None.

Definition hex2 (s : string) : option N :=
  match s with
  | String a (String b _) =>
      match hex_value a, hex_value b with
      | Some x, Some y => Some (16 * x + y)%N
      | _, _ => None
      end
  | _ => None
  end.

Definition hex4 (s : string) : option N :=
  match s with
  | String a (String b rest) =>
      match hex2 s, hex2 rest with
      | Some x, Some y => Some (256 * x + y)%N
      | _, _ => None
      end
  | _ => None
  end.

(** The escape that follows a ['%']: its value and its length. *)
Definition escape_at (s : string) : option (N * nat) :=
  match s with
  | String "u" rest =>
      match hex4 rest with
      | Some n => Some (n, 5)
      | None => (fun n => (n, 2)) <$> hex2 s
      end
  | _ => (fun n => (n, 2)) <$> hex2 s
  end.

Fixpoint unescape_from (skip : nat) (s : string) : list N :=
  match s with
  | EmptyString => []
  | String c s' =>
      match skip with
      | S k => unescape_from k s'
      | O =>
          if decide (c = "%"%char) then
            match escape_at s' with
            | Some (n, len) => n :: unescape_from len s'
            | None => N_of_ascii c :: unescape_from 0 s'
            end
          else N_of_ascii c :: unescape_from 0 s'
      end
  end.

Definition unescape (s : string) : list N := unescape_from 0 s.

(** Base64 *)
Definition base64_alphabet : string :=
  "ABCDEFGHIJKLMNOPQRSTUVWXYZabcdefghijklmnopqrstuvwxyz0123456789+/".

Fixpoint base64 (l : list N) : string :=
  match l with
  | [] => EmptyString
  | [a] =>
      String (digit base64_alphabet (a / 4))
        (String (digit base64_alphabet (a mod 4 * 16)) "==")
  | [a; b] =>
      String (digit base64_alphabet (a / 4))
        (String (digit base64_alphabet (a mod 4 * 16 + b / 16))
           (String (digit base64_alphabet (b mod 16 * 4)) "="))
  | a :: b :: c :: rest =>
      String (digit base64_alphabet (a / 4))
        (String (digit base64_alphabet (a mod 4 * 16 + b / 16))
           (String (digit base64_alphabet (b mod 16 * 4 + c / 64))
              (String (digit base64_alphabet (c mod 64)) (base64 rest))))
  end.

(** [btoa]: throws on a code unit above 255. *)
Definition btoa (l : list N) : outcome string :=
  if forallb (fun n => n <=? 255)%N l then Returned (base64 l)
  else Thrown "InvalidCharacterError".

End Encoding.

Import Encoding.

(** ** The title pattern [/<title>(.+)<\/title>/i]

    The tags are compared ignoring case; a dot takes any code unit but a
    line terminator; [.+] is greedy, and the search takes the leftmost
    position where the whole pattern matches. *)

Module TitlePattern.

Definition isLineTerminator (c : ascii) : bool :=
  bool_decide (c = "010"%char) || bool_decide (c = "013"%char).

Fixpoint startsWith_ignoreCase (p s : string) : bool :=
  match p, s with
  | EmptyString, _ => true
  | String a p', String b s' =>
      if decide (Headers.lower_unit a = Headers.lower_unit b)
      then startsWith_ignoreCase p' s' else false
  | String _ _, EmptyString => false
  end.

Fixpoint skip (n : nat) (s : string) : string :=
  match n, s with
  | S k, String _ s' => skip k s'
  | _, _ => s
  end.

(** [.*</title>] from the start of [s]: the longest run of dots after
    which the closing tag follows. *)
Fixpoint dots_then_close (s : string) : option string :=
  let here := if startsWith_ignoreCase "</title>" s then Some EmptyString else None in
  match s with
  | EmptyString => here
  | String c s' =>
      if isLineTerminator c then here
      else match dots_then_close s' with
           | Some t => Some (String c t)
           | None => here
           end
  end.

(** The whole pattern tried at the start of [s]; the result is group 1. *)
Definition match_here (s : string) : option string :=
  if startsWith_ignoreCase "<title>" s then
    match skip 7 s with
    | String c s' =>
        if isLineTerminator c then None else String c <$> dots_then_close s'
    | EmptyString => None
    end
  else None.

(** [head.match(/<title>(.+)<\/title>/i)], reduced to its group 1. *)
Fixpoint match_title (s : string) : option string :=
  match match_here s with
  | Some t => Some t
  | None =>
      match s with
      | EmptyString => None
      | String _ s' => match_title s'
      end
  end.

End TitlePattern.

Import TitlePattern.

(** ** Assembling a page response *)

Definition or_else (a b : option string) : option string :=
  if truthy a then a else b.

(** Partial-content mode:
    [Boolean(req.headers.get('x-partial-content') || searchParams.get('partialContent'))] *)
Definition partialContent (req : ServerRequest) : bool :=
  truthy (or_else (Headers.get "x-partial-content" (req_headers req))
                  (searchParams_get "partialContent" (reqToURL req))).

Definition proxy (req : ServerRequest) (page : Page) (config : Config)
  : Async PartialResponse :=
  let partialContent := partialContent req in
  let* pageData := await (handler page req (routeParams req (route page))) in
  let responseBody : list (option string) := [] in
  match pageData with
  | None => throw "Could not create PageData from handler."
  | Some pageData =>
      let preContent := generatePreContent (template page) partialContent in
      let headers := Headers.new (pd_headers pageData) in
      let headers := Headers.set "Content-Type" "text/html" headers in
      let* headers :=
        if negb (truthy preContent) && truthy (head pageData) then
          match match_title (default EmptyString (head pageData)) with
          | Some title =>
              let json := JSON_stringify_title title in
              let* base64JSON := await (btoa (unescape (encodeURIComponent json))) in
              ret (Headers.set "X-Header-Updates" base64JSON headers)
          | None => ret headers
          end
        else ret headers in
      let* responseBody :=
        if truthy preContent then
          if truthy (head pageData) then
            let preSplit := split "<head>" (default EmptyString preContent) in
            let responseBody := responseBody ++ [preSplit !! 0] in
            let headMarkup := "<head>" +:+ default EmptyString (head pageData) in
            let responseBody := responseBody ++ [Some headMarkup] in
            ret (responseBody ++ [preSplit !! 1])
          else
            respond {| resp_status := None; resp_headers := None;
                       resp_body := BodyString <$> preContent |} ;;
            ret responseBody
        else ret responseBody in
      let mainBody := body pageData in
      let responseBody :=
        responseBody ++
        [Some (if partialContent then mainBody
               else "<nattramn-router>" +:+ mainBody +:+ "</nattramn-router>")] in
      let postContent := generatePostContent (template page) partialContent in
      let responseBody :=
        if truthy postContent then responseBody ++ [postContent] else responseBody in
      let finalBody := TextEncoder_encode (join (String "010"%char EmptyString) responseBody) in
      ret {| pr_headers := headers; pr_body := finalBody; pr_status := 200 |}
  end.

(** ** Static files *)

Definition serveStatic `{Platform} (req : ServerRequest) (filePath : string)
    (serverConfig : ServerConfig) : Async PartialResponse :=
  let filePath := "." +:+ filePath in
  let* file := await (Deno_readFile filePath) in
  let headers := Headers.new None in
  let contentType := getContentType filePath in
  let headers :=
    if truthy contentType
    then Headers.set "content-type" (default EmptyString contentType) headers
    else headers in
  let body := file in
  ret {| pr_headers := headers; pr_body := body; pr_status := 200 |}.

(** ** The server object *)

(** The constructor: the compression method defaults to brotli. *)
Definition Nattramn (config : Config) : Config :=
  match compression (server config) with
  | None =>
      {| server := {| compression := Some Brotli;
                      cfg_serveStatic := cfg_serveStatic (server config) |};
         router := router config |}
  | Some _ => config
  end.

Definition handleRequest `{Platform} (this_config : Config) (req : ServerRequest)
  : Async PartialResponse :=
  let url := reqToURL req in
  let* staticPath :=
    await (String_match (pathname url)
             (default EmptyString (cfg_serveStatic (server this_config)))) in
  let hasExtention := negb (bool_decide (extname (pathname url) = EmptyString)) in
  if hasExtention then
    if bool_decide (pathname url = "/nattramn-client.js") then
      let* body :=
        await (fetch_arrayBuffer "https://unpkg.com/nattramn@latest/dist-web/index.bundled.js") in
      let checksum := Sha1_hex body in
      let headers := Headers.set "Content-Type" "application/javascript" ∅ in
      ret {| pr_headers := headers; pr_status := 200; pr_body := body |}
    else if staticPath then
      serveStatic req (pathname url) (server this_config)
    else if truthy (cfg_serveStatic (server this_config)) then
      serveStatic req
        ("/" +:+ default EmptyString (cfg_serveStatic (server this_config)) +:+ pathname url)
        (server this_config)
    else throw "Could not find file."
  else
    match List.find (fun page => canHandleRoute req (route page)) (pages (router this_config)) with
    | Some page => proxy req page this_config
    | None => throw "Could not find route."
    end.

Definition compression_is (config : Config) (m : CompressionMethod) : bool :=
  match compression (server config) with
  | Some m' => bool_decide (CompressionMethod_value m' = CompressionMethod_value m)
  | None => false
  end.

Definition String_of_nat (n : nat) : string := NilEmpty.string_of_uint (Nat.to_uint n).

(** [req.headers.get('accept-encoding')?.includes(name)] *)
Definition accept_encoding_includes (req : ServerRequest) (name : string) : bool :=
  match Headers.get "accept-encoding" (req_headers req) with
  | Some v => includes name v
  | None => false
  end.

Definition useGzip (this_config : Config) (req : ServerRequest) : bool :=
  compression_is this_config Gzip && accept_encoding_includes req "gzip".

Definition useBrotli (this_config : Config) (req : ServerRequest) : bool :=
  compression_is this_config Brotli && accept_encoding_includes req "br".

(** One turn of the loop of [handleRequests]: the request is handled and
    answered; a failure is answered with the 404 response.  (What the
    loop writes to the console is left out.) *)
Definition handleRequests_step `{Platform} (this_config : Config) (req : ServerRequest)
  : Async unit :=
  try_catch
    (let* r := handleRequest this_config req in
     let body := pr_body r in
     let status := pr_status r in
     let headers := pr_headers r in
     let checksum := Sha1_hex body in
     let headers := Headers.set "ETag" checksum headers in
     let headers :=
       if bool_decide (Headers.get "Cache-Control" headers = None)
       then Headers.set "Cache-Control" "public, max-age=3600" headers
       else headers in
     let '(headers, body) :=
       if useGzip this_config req
       then (Headers.set "Content-Encoding" "gzip" headers, gzipEncode body)
       else (headers, body) in
     let '(headers, body) :=
       if useBrotli this_config req
       then (Headers.set "Content-Encoding" "br" headers, brotliEncode body)
       else (headers, body) in
     let headers := Headers.set "Content-Length" (String_of_nat (length body)) headers in
     respond {| resp_body := Some (BodyBytes body); resp_status := Some status;
                resp_headers := Some headers |})
    (fun e =>
       respond {| resp_status := Some 404; resp_body := Some (BodyString "Not Found");
                  resp_headers := None |}).

(** [handleRequests]: the requests the server yields are handled in turn;
    the result lists, for each request, the responses written for it. *)
Definition handleRequests `{Platform} (this_config : Config) (server : list ServerRequest)
  : list (list Response) :=
  (fun req => snd (handleRequests_step this_config req [])) <$> server.

(** ** Vocabulary for the statements *)

(** The number of positions of [s] at which [sub] occurs. *)
Fixpoint occurrences (sub s : string) : nat :=
  (if startsWith sub s then 1 else 0) +
  match s with
  | EmptyString => 0
  | String _ s' => occurrences sub s'
  end.

(** Reading base64 text back into bytes, to state what a value decodes to. *)
Fixpoint index_in (c : ascii) (alphabet : string) (i : N) : option N :=
  match alphabet with
  | EmptyString => None
  | String d rest => if decide (c = d) then Some i else index_in c rest (i + 1)%N
  end.

Definition sextet (c : ascii) : option N := index_in c base64_alphabet 0%N.

Fixpoint base64_decode (s : string) : option (list N) :=
  match s with
  | EmptyString => Some []
  | String c1 (String c2 (String c3 (String c4 rest))) =>
      match sextet c1, sextet c2 with
      | Some s1, Some s2 =>
          let b1 := (s1 * 4 + s2 / 16)%N in
          if decide (c3 = "="%char) then
            if decide (c4 = "="%char) then
              match rest with EmptyString => Some [b1] | String _ _ => None end
            else None
          else
            match sextet c3 with
            | Some s3 =>
                let b2 := (s2 mod 16 * 16 + s3 / 4)%N in
                if decide (c4 = "="%char) then
                  match rest with EmptyString => Some [b1; b2] | String _ _ => None end
                else
                  match sextet c4 with
                  | Some s4 =>
                      (fun l => b1 :: b2 :: (s3 mod 4 * 64 + s4)%N :: l)
                        <$> base64_decode rest
                  | None => None
                  end
            | None => None
            end
      | _, _ => None
      end
  | String _ _ => None
  end.

(** A request for [path], with no query and no headers. *)
Definition request (path : string) : ServerRequest :=
  {| req_url := {| pathname := path; searchParams := [] |}; req_headers := ∅ |}.

(** The same request in partial-content mode. *)
Definition partial_request (path : string) : ServerRequest :=
  {| req_url := {| pathname := path; searchParams := [] |};
     req_headers := Headers.set "x-partial-content" "1" ∅ |}.

Definition LF : string := String "010"%char EmptyString.

(** Whether a text runs over several lines. *)
Fixpoint hasLineTerminator (s : string) : bool :=
  match s with
  | EmptyString => false
  | String c s' => isLineTerminator c || hasLineTerminator s'
  end.

(** ** A platform to run examples on

    The extension is computed as the path library does for a path whose
    last component has the form [name.ext]; patterns are searched as
    plain text, which is what a pattern without special characters means;
    one file exists; the hash and the two encoders are stand-ins, whose
    results the pipeline never inspects. *)
Module Demo.

Definition extname (path : string) : string :=
  let component := List.last (split "/" path) EmptyString in
  match split "." component with
  | [] | [_] => EmptyString
  | first :: rest =>
      if bool_decide (first = EmptyString) && bool_decide (length rest = 1)
      then EmptyString
      else "." +:+ List.last rest EmptyString
  end.

Definition String_match (s pattern : string) : outcome bool :=
  Returned match pattern with
           | EmptyString => true
           | String _ _ => includes pattern s
           end.

Definition readFile (path : string) : outcome (list byte) :=
  if bool_decide (path = "./notes.txt")
  then Returned (TextEncoder_encode "private notes")
  else Thrown "NotFound".

Definition platform : Platform :=
  Build_Platform
    extname
    String_match
    (fun _ => eq_refl)
    (fun _ => "0000000000000000000000000000000000000000")
    (fun b => x1f :: x8b :: b)
    (fun b => xce :: b)
    (fun _ => Returned (TextEncoder_encode "export {};"))
    readFile.

(** A page whose handler returns the given head and body. *)
Definition page (route template : string) (head : option string) (body : string) : Page :=
  {| route := route; template := template;
     handler := fun _ _ =>
       Returned (Some {| head := head; body := body; pd_headers := None |}) |}.

Definition config (method : CompressionMethod) (pages : list Page) : Config :=
  Nattramn {| server := {| compression := Some method; cfg_serveStatic := None |};
              router := {| pages := pages |} |}.

End Demo.

(** ** More platforms to run examples on

    [Fixture.platform files bundle] has the given files (path and text)
    and the given outcome of fetching the client bundle; the pattern [(]
    is rejected as no regular expression, every other pattern is searched
    as plain text. *)
Module Fixture.

Definition String_match (s pattern : string) : outcome bool :=
  match pattern with
  | EmptyString => Returned true
  | String _ _ =>
      if bool_decide (pattern = "(") then Thrown "SyntaxError"
      else Returned (includes pattern s)
  end.

Definition readFile (files : list (string * string)) (path : string) : outcome (list byte) :=
  match List.find (fun file => bool_decide (fst file = path)) files with
  | Some file => Returned (TextEncoder_encode (snd file))
  | None => Thrown "NotFound"
  end.

Definition platform (files : list (string * string)) (bundle : outcome (list byte)) : Platform :=
  Build_Platform
    Demo.extname
    String_match
    (fun _ => eq_refl)
    (fun _ => "0000000000000000000000000000000000000000")
    (fun b => x1f :: x8b :: b)
    (fun b => xce :: b)
    (fun _ => bundle)
    (readFile files).

(** A page whose handler returns the given outcome. *)
Definition page (route template : string) (result : outcome (option PageData)) : Page :=
  {| route := route; template := template; handler := fun _ _ => result |}.

Definition config (method : option CompressionMethod) (prefix : option string)
    (pages : list Page) : Config :=
  Nattramn {| server := {| compression := method; cfg_serveStatic := prefix |};
              router := {| pages := pages |} |}.

(** A request for [path] with the given headers. *)
Definition request (path : string) (headers : list (string * string)) : ServerRequest :=
  {| req_url := {| pathname := path; searchParams := [] |};
     req_headers := fold_right (fun kv h => Headers.set (fst kv) (snd kv) h) ∅ headers |}.

End Fixture.

(** * Properties *)

(** ** The runtime functions on small inputs *)

Example split_slash : split "/" "/users/123" = [""; "users"; "123"].
Proof. reflexivity. Qed.

Example split_marker :
  split "<nattramn-router>" "<html><nattramn-router></nattramn-router></html>"
  = ["<html>"; "</nattramn-router></html>"].
Proof. reflexivity. Qed.

Example split_of_empty : split "/" "" = [""].
Proof. reflexivity. Qed.

Example indexOf_absent : indexOf "<head>" "<html>" = (-1)%Z.
Proof. reflexivity. Qed.

Example json_title_Home :
  JSON_stringify_title "Home"
  = String "{" (String quote ("title" +:+ String quote (":" +:+ String quote ("Home" +:+ String quote "}")))).
Proof. reflexivity. Qed.

Example btoa_Home :
  btoa (unescape (encodeURIComponent (JSON_stringify_title "Home")))
  = Returned "eyJ0aXRsZSI6IkhvbWUifQ==".
Proof. reflexivity. Qed.

Example unescape_u : unescape "%u0141%41%zz" = [321; 65; 37; 122; 122]%N.
Proof. reflexivity. Qed.

Example match_title_Home : match_title "<meta><TITLE>Home</title>" = Some "Home".
Proof. reflexivity. Qed.

Example match_title_greedy :
  match_title "<title>A</title><title>B</title>" = Some "A</title><title>B".
Proof. reflexivity. Qed.

Example match_title_empty : match_title "<title></title>" = None.
Proof. reflexivity. Qed.


(** ** Route matching *)

Section RouteMatching.

Lemma filter_length_Forall {A} (P : A -> Prop) `{!forall x, Decision (P x)} (l : list A) :
  length (filter P l) = length l <-> Forall P l.
Proof.
  induction l as [|x l IH]; [by split; [constructor|]|].
  rewrite filter_cons. destruct (decide (P x)) as [HP|HP]; simpl.
  - rewrite Forall_cons. split; [intros [= Hl]|intros [_ Hl]].
    + split; [done|by apply IH].
    + f_equal. by apply IH.
  - split; [intros Hl|intros Hl].
    + pose proof (length_filter P l). lia.
    + by apply Forall_cons in Hl as [? _].
Qed.

(** C1: route matching succeeds exactly when the request path and the
    pattern have the same number of [/]-separated segments and every
    pattern segment without a colon equals the request's segment at the
    same index; segments with a colon put no condition on the request's
    segment. *)
Theorem canHandleRoute_iff (req : ServerRequest) (route : string) :
  canHandleRoute req route = true <->
  length (split "/" (pathname (reqToURL req))) = length (split "/" route)
  /\ forall index value,
       split "/" route !! index = Some value ->
       includes ":" value = false ->
       split "/" (pathname (reqToURL req)) !! index = Some value.
Proof.
  unfold canHandleRoute.
  set (requestURL := split "/" (pathname (reqToURL req))).
  set (routeURL := split "/" route).
  set (test := fun (index : nat) (value : string) =>
                 if includes ":" value then true
                 else bool_decide (requestURL !! index = Some value)).
  rewrite andb_true_iff, !bool_decide_eq_true.
  assert (Hall : length (filter (fun b : bool => b) (imap test routeURL)) = length routeURL
                 <-> forall index value, routeURL !! index = Some value ->
                       includes ":" value = false -> requestURL !! index = Some value).
  { rewrite <- (length_imap test routeURL).
    rewrite filter_length_Forall, Forall_lookup. split.
    - intros Hm index value Hv Hc.
      specialize (Hm index (test index value)).
      rewrite list_lookup_imap, Hv in Hm. specialize (Hm eq_refl).
      unfold test in Hm. rewrite Hc in Hm. by apply bool_decide_unpack in Hm.
    - intros Hm index b. rewrite list_lookup_imap.
      destruct (routeURL !! index) as [value|] eqn:Hv; [|done].
      intros [= <-]. unfold test.
      destruct (includes ":" value) eqn:Hc; [done|].
      apply bool_decide_pack. by apply Hm. }
  split.
  - intros [H1 H2]. split; [congruence|]. by apply Hall.
  - intros [H1 H2]. apply Hall in H2. split; congruence.
Qed.

End RouteMatching.

(** ** Facts about the string methods *)

Section StringFacts.

Lemma append_cons c s t : String c s +:+ t = String c (s +:+ t).
Proof. reflexivity. Qed.

Lemma append_nil_l s : EmptyString +:+ s = s.
Proof. reflexivity. Qed.

Lemma append_nil_r s : s +:+ EmptyString = s.
Proof. induction s as [|c s IH]; [done|]. by rewrite append_cons, IH. Qed.

Lemma append_assoc s t u : (s +:+ t) +:+ u = s +:+ t +:+ u.
Proof. induction s as [|c s IH]; [done|]. by rewrite !append_cons, IH. Qed.

Lemma length_append s t : String.length (s +:+ t) = String.length s + String.length t.
Proof. induction s as [|c s IH]; [done|]. rewrite append_cons. simpl. by rewrite IH. Qed.

Lemma startsWith_append p r : startsWith p (p +:+ r) = true.
Proof.
  induction p as [|c p IH]; [done|].
  rewrite append_cons. simpl. by rewrite decide_True.
Qed.

Lemma startsWith_inv p s : startsWith p s = true -> exists r, s = p +:+ r.
Proof.
  revert s. induction p as [|c p IH]; intros s Hp; [by exists s|].
  destruct s as [|d s]; [done|]. simpl in Hp.
  destruct (decide (c = d)) as [->|]; [|done].
  destruct (IH s Hp) as [r ->]. by exists r.
Qed.

Lemma indexOf_from_shift sub s pos :
  (-1 <= indexOf sub s)%Z
  /\ indexOf_from sub s pos
     = (if (indexOf sub s =? -1)%Z then -1 else pos + indexOf sub s)%Z.
Proof.
  unfold indexOf. revert pos. induction s as [|c s IH]; intros pos; simpl.
  - destruct (startsWith sub EmptyString); simpl; split; (lia || f_equal; lia).
  - destruct (startsWith sub (String c s)); simpl; [split; (lia || f_equal; lia)|].
    destruct (IH (0 + 1)%Z) as [Hge ->]. destruct (IH (pos + 1)%Z) as [_ ->].
    destruct (Z.eqb_spec (indexOf_from sub s 0) (-1)) as [->|Hne]; [done|].
    destruct (Z.eqb_spec (0 + 1 + indexOf_from sub s 0) (-1)); split; lia.
Qed.

Lemma indexOf_ge sub s : (-1 <= indexOf sub s)%Z.
Proof. apply (indexOf_from_shift sub s 0%Z). Qed.

Lemma indexOf_cons sub c s :
  indexOf sub (String c s)
  = (if startsWith sub (String c s) then 0
     else if (indexOf sub s =? -1) then -1 else 1 + indexOf sub s)%Z.
Proof.
  unfold indexOf at 1. simpl.
  destruct (startsWith sub (String c s)); [done|].
  apply indexOf_from_shift.
Qed.

Lemma indexOf_nil sub :
  indexOf sub EmptyString = (if startsWith sub EmptyString then 0 else -1)%Z.
Proof. reflexivity. Qed.

Lemma includes_indexOf sub s : includes sub s = negb (indexOf sub s =? -1)%Z.
Proof.
  induction s as [|c s IH].
  - simpl. rewrite indexOf_nil. by destruct (startsWith sub EmptyString).
  - simpl. rewrite indexOf_cons, IH.
    destruct (startsWith sub (String c s)); [done|]. simpl.
    pose proof (indexOf_ge sub s).
    destruct (Z.eqb_spec (indexOf sub s) (-1)); [done|].
    destruct (Z.eqb_spec (1 + indexOf sub s) (-1)); [lia|done].
Qed.

Lemma split_from_skip sep p r :
  split_from sep (String.length p) (p +:+ r) = split_from sep 0 r.
Proof. induction p as [|c p IH]; [done|]. by rewrite append_cons. Qed.

Lemma split_from_nonempty sep s : split_from sep 0 s <> [].
Proof.
  induction s as [|c s IH]; [done|]. simpl.
  destruct (startsWith sep (String c s)); [done|].
  by destruct (split_from sep 0 s).
Qed.

Lemma split_from_cons sep c s :
  split_from sep 0 (String c s)
  = if startsWith sep (String c s)
    then EmptyString :: split_from sep (String.length sep - 1) s
    else match split_from sep 0 s with
         | piece :: rest => String c piece :: rest
         | [] => [String c EmptyString]
         end.
Proof. reflexivity. Qed.

(** The equations of [split]: a string without the separator is one
    piece; otherwise the first piece ends at the first occurrence and
    the rest is split in the same way. *)
Lemma split_absent sep s :
  sep <> EmptyString -> indexOf sep s = (-1)%Z -> split sep s = [s].
Proof.
  intros Hsep. destruct sep as [|d sep]; [done|]. unfold split. clear Hsep.
  induction s as [|c s IH]; [done|].
  rewrite indexOf_cons, split_from_cons.
  destruct (startsWith (String d sep) (String c s)); [done|].
  destruct (Z.eqb_spec (indexOf (String d sep) s) (-1)) as [Hs|Hs].
  - intros _. by rewrite (IH Hs).
  - pose proof (indexOf_ge (String d sep) s). lia.
Qed.

Lemma split_first sep a r :
  sep <> EmptyString ->
  indexOf sep (a +:+ sep +:+ r) = Z.of_nat (String.length a) ->
  split sep (a +:+ sep +:+ r) = a :: split sep r.
Proof.
  intros Hsep. destruct sep as [|d sep]; [done|]. unfold split. clear Hsep.
  induction a as [|c a IH].
  - intros _. rewrite append_nil_l, append_cons, split_from_cons.
    rewrite <- append_cons, startsWith_append.
    replace (String.length (String d sep) - 1) with (String.length sep) by (simpl; lia).
    by rewrite split_from_skip.
  - rewrite append_cons, indexOf_cons, split_from_cons.
    destruct (startsWith (String d sep) (String c (a +:+ String d sep +:+ r)));
      [simpl; lia|].
    destruct (Z.eqb_spec (indexOf (String d sep) (a +:+ String d sep +:+ r)) (-1));
      [simpl; lia|].
    intros Hi. rewrite IH; [done|]. simpl in Hi. lia.
Qed.

(** The first occurrence of [sub] in [s], as a decomposition. *)
Lemma indexOf_found sub s :
  indexOf sub s <> (-1)%Z ->
  exists a r, s = a +:+ sub +:+ r /\ indexOf sub s = Z.of_nat (String.length a).
Proof.
  induction s as [|c s IH].
  - rewrite indexOf_nil. destruct (startsWith sub EmptyString) eqn:Hp; [|done].
    intros _. apply startsWith_inv in Hp as [r Hr]. by exists EmptyString, r.
  - rewrite indexOf_cons.
    destruct (startsWith sub (String c s)) eqn:Hp.
    + intros _. apply startsWith_inv in Hp as [r Hr]. by exists EmptyString, r.
    + destruct (Z.eqb_spec (indexOf sub s) (-1)) as [|Hs]; [done|].
      intros _. destruct (IH Hs) as (a & r & -> & Hi).
      exists (String c a), r. split; [done|]. rewrite Hi. simpl. lia.
Qed.

End StringFacts.

(** ** Template splitting *)

Section TemplateSplitting.

Lemma occurrences_cons sub c s :
  occurrences sub (String c s)
  = (if startsWith sub (String c s) then 1 else 0) + occurrences sub s.
Proof. reflexivity. Qed.

Lemma occurrences_suffix sub x y : occurrences sub y <= occurrences sub (x +:+ y).
Proof.
  induction x as [|c x IH]; [done|].
  rewrite append_cons, occurrences_cons. lia.
Qed.

Lemma occurrences_here sub r : 1 <= occurrences sub (sub +:+ r).
Proof.
  destruct (sub +:+ r) eqn:E; simpl; rewrite <- E, startsWith_append; lia.
Qed.

Lemma occurrences_first sub a r :
  occurrences sub (a +:+ sub +:+ r) = 1 ->
  indexOf sub (a +:+ sub +:+ r) = Z.of_nat (String.length a).
Proof.
  induction a as [|c a IH].
  - intros _. rewrite append_nil_l. unfold indexOf.
    destruct (sub +:+ r) eqn:E; simpl; by rewrite <- E, startsWith_append.
  - rewrite append_cons, occurrences_cons, indexOf_cons.
    pose proof (occurrences_here sub r).
    pose proof (occurrences_suffix sub a (sub +:+ r)).
    destruct (startsWith sub (String c (a +:+ sub +:+ r))); [lia|].
    intros Hone. rewrite IH by lia.
    destruct (Z.eqb_spec (Z.of_nat (String.length a)) (-1)); simpl String.length; lia.
Qed.

Lemma occurrences_after sub a r :
  sub <> EmptyString -> occurrences sub (a +:+ sub +:+ r) = 1 -> occurrences sub r = 0.
Proof.
  intros Hsub Hone. destruct sub as [|d sub]; [done|].
  pose proof (occurrences_suffix (String d sub) a (String d sub +:+ r)) as Ha.
  pose proof (occurrences_suffix (String d sub) sub r) as Hr.
  assert (occurrences (String d sub) (String d sub +:+ r)
          = 1 + occurrences (String d sub) (sub +:+ r)) as Hd.
  { rewrite append_cons, occurrences_cons, <- append_cons.
    by rewrite startsWith_append. }
  lia.
Qed.

Lemma occurrences_none sub s : occurrences sub s = 0 -> indexOf sub s = (-1)%Z.
Proof.
  induction s as [|c s IH].
  - simpl. rewrite indexOf_nil. destruct (startsWith sub EmptyString); [done|done].
  - rewrite occurrences_cons, indexOf_cons.
    destruct (startsWith sub (String c s)); [done|].
    intros Hs. by rewrite IH.
Qed.

Lemma generatePreContent_before a r :
  occurrences "<nattramn-router>" (a +:+ "<nattramn-router>" +:+ r) = 1 ->
  generatePreContent (a +:+ "<nattramn-router>" +:+ r) false = Some a.
Proof.
  intros Hone. apply occurrences_first in Hone as Hi.
  unfold generatePreContent. rewrite Hi, split_first by done.
  by destruct (Z.eqb_spec (Z.of_nat (String.length a)) (-1)); [lia|].
Qed.

Lemma generatePostContent_after a r :
  occurrences "</nattramn-router>" (a +:+ "</nattramn-router>" +:+ r) = 1 ->
  generatePostContent (a +:+ "</nattramn-router>" +:+ r) false = Some r.
Proof.
  intros Hone. apply occurrences_first in Hone as Hi.
  apply occurrences_after, occurrences_none in Hone; [|done].
  unfold generatePostContent. rewrite Hi, split_first, (split_absent _ r) by done.
  by destruct (Z.eqb_spec (Z.of_nat (String.length a)) (-1)); [lia|].
Qed.

(** C7, as amended: a template [a + open + inner + close + b] in which
    each marker occurs exactly once (so the open marker comes before the
    close marker) is split, with [isPartial = false], into the
    pre-fragment [a] and the post-fragment [b]; concatenating the
    pre-fragment, the open marker, the inner content, the close marker
    and the post-fragment gives back the template. *)
Theorem template_reconstructed (a inner b : string) :
  let template := a +:+ "<nattramn-router>" +:+ inner +:+ "</nattramn-router>" +:+ b in
  occurrences "<nattramn-router>" template = 1 ->
  occurrences "</nattramn-router>" template = 1 ->
  generatePreContent template false = Some a
  /\ generatePostContent template false = Some b
  /\ default EmptyString (generatePreContent template false)
     +:+ "<nattramn-router>" +:+ inner +:+ "</nattramn-router>"
     +:+ default EmptyString (generatePostContent template false)
     = template.
Proof.
  intros template Hopen Hclose.
  assert (generatePreContent template false = Some a) as Hpre
    by by apply generatePreContent_before.
  assert (generatePostContent template false = Some b) as Hpost.
  { unfold template in *.
    rewrite <- (append_assoc "<nattramn-router>" inner), <- (append_assoc a) in *.
    by apply generatePostContent_after. }
  by rewrite Hpre, Hpost.
Qed.

Lemma template_reconstructed_witness :
  let template := "<html><nattramn-router>x</nattramn-router></html>" in
  generatePreContent template false = Some "<html>"
  /\ generatePostContent template false = Some "</html>"
  /\ default EmptyString (generatePreContent template false)
     +:+ "<nattramn-router>" +:+ "x" +:+ "</nattramn-router>"
     +:+ default EmptyString (generatePostContent template false)
     = template.
Proof.
  apply (template_reconstructed "<html>" "x" "</html>"); reflexivity.
Defined.

(** C7 as stated fails where the one close marker comes before the one
    open marker: the two fragments then overlap, and no inner content
    makes the concatenation equal to the template. *)
Lemma template_markers_reversed :
  let template := "</nattramn-router><nattramn-router>" in
  occurrences "<nattramn-router>" template = 1
  /\ occurrences "</nattramn-router>" template = 1
  /\ ~ exists inner,
         default EmptyString (generatePreContent template false)
         +:+ "<nattramn-router>" +:+ inner +:+ "</nattramn-router>"
         +:+ default EmptyString (generatePostContent template false)
         = template.
Proof.
  split; [reflexivity|]. split; [reflexivity|].
  intros [inner Heq]. apply (f_equal String.length) in Heq.
  rewrite !length_append in Heq.
  assert (String.length
            (default EmptyString
               (generatePreContent "</nattramn-router><nattramn-router>" false)) = 18)
    as Hpre by reflexivity.
  assert (String.length
            (default EmptyString
               (generatePostContent "</nattramn-router><nattramn-router>" false)) = 17)
    as Hpost by reflexivity.
  rewrite Hpre, Hpost in Heq. simpl in Heq. lia.
Qed.

End TemplateSplitting.

(** ** Route parameters *)

Section RouteParams.

Lemma startsWith_unit_cons d c s :
  startsWith (String d EmptyString) (String c s) = bool_decide (d = c).
Proof. simpl. by case_decide; case_bool_decide. Qed.

Lemma indexOf_unit_first d a r :
  includes (String d EmptyString) a = false ->
  indexOf (String d EmptyString) (a +:+ String d EmptyString +:+ r)
  = Z.of_nat (String.length a).
Proof.
  induction a as [|c a IH]; intros Ha.
  - rewrite append_nil_l, append_cons, indexOf_cons. simpl. by rewrite decide_True.
  - rewrite append_cons, indexOf_cons, startsWith_unit_cons.
    change (includes (String d EmptyString) (String c a))
      with (startsWith (String d EmptyString) (String c a)
            || includes (String d EmptyString) a) in Ha.
    rewrite startsWith_unit_cons in Ha. apply orb_false_elim in Ha as [-> Ha].
    rewrite (IH Ha).
    destruct (Z.eqb_spec (Z.of_nat (String.length a)) (-1)); simpl String.length; lia.
Qed.

Lemma includes_unit_before d a r :
  indexOf (String d EmptyString) (a +:+ String d EmptyString +:+ r)
  = Z.of_nat (String.length a) ->
  includes (String d EmptyString) a = false.
Proof.
  induction a as [|c a IH]; [done|].
  rewrite append_cons, indexOf_cons, startsWith_unit_cons.
  change (includes (String d EmptyString) (String c a))
    with (startsWith (String d EmptyString) (String c a)
          || includes (String d EmptyString) a).
  rewrite startsWith_unit_cons.
  destruct (bool_decide (d = c)); [simpl; lia|].
  destruct (Z.eqb_spec (indexOf (String d EmptyString) (a +:+ String d EmptyString +:+ r)) (-1));
    [simpl; lia|].
  intros Hi. simpl. apply IH. simpl in Hi. lia.
Qed.

(** The name a segment declares is the text between its first colon and
    its next colon, or its end. *)
Lemma keyname_spec (curr key : string) :
  keyname curr = Some key <->
  exists a b, curr = a +:+ ":" +:+ key +:+ b
              /\ includes ":" a = false /\ includes ":" key = false
              /\ (b = EmptyString \/ startsWith ":" b = true).
Proof.
  unfold keyname. split.
  - destruct (includes ":" curr) eqn:Hc; [|done].
    rewrite includes_indexOf in Hc. apply negb_true_iff, Z.eqb_neq in Hc.
    apply indexOf_found in Hc as (a & r & -> & Hi).
    rewrite split_first by done.
    change ((a :: split ":" r) !! 1) with (split ":" r !! 0).
    apply includes_unit_before in Hi as Ha.
    destruct (Z.eq_dec (indexOf ":" r) (-1)%Z) as [Hr|Hr].
    + rewrite split_absent by done. intros [= <-].
      exists a, EmptyString. rewrite append_nil_r.
      repeat split; [done| |by left]. by rewrite includes_indexOf, Hr.
    + apply indexOf_found in Hr as (k & r' & -> & Hk).
      rewrite split_first by done. intros [= <-].
      exists a, (":" +:+ r'). apply includes_unit_before in Hk.
      repeat split; [done..|by right].
  - intros (a & b & -> & Ha & Hk & Hb).
    pose proof (indexOf_unit_first ":" a (key +:+ b) Ha) as Hi.
    rewrite includes_indexOf, Hi, split_first by done.
    destruct (Z.eqb_spec (Z.of_nat (String.length a)) (-1)); [lia|].
    change ((a :: split ":" (key +:+ b)) !! 1) with (split ":" (key +:+ b) !! 0).
    destruct Hb as [->|Hb].
    + rewrite append_nil_r, split_absent; [done..|].
      rewrite includes_indexOf in Hk. by apply negb_false_iff, Z.eqb_eq in Hk.
    + apply startsWith_inv in Hb as [b' ->].
      by rewrite split_first by (done || by apply indexOf_unit_first).
Qed.

Lemma reduce_from_snoc {A B} (f : B -> A -> nat -> B) i acc (l : list A) x :
  reduce_from f i acc (l ++ [x]) = f (reduce_from f i acc l) x (i + length l).
Proof.
  revert i acc. induction l as [|y l IH]; intros i acc; simpl.
  - by rewrite Nat.add_0_r.
  - rewrite IH. f_equal. lia.
Qed.

Lemma reduce_params_lookup (requestURL routeURL : list string) key value :
  reduce (fun acc curr i =>
            if truthy (keyname curr)
            then <[default EmptyString (keyname curr) := requestURL !! i]> acc
            else acc) (∅ : gmap string (option string)) routeURL !! key = Some value <->
  key <> EmptyString
  /\ exists i curr,
       routeURL !! i = Some curr /\ keyname curr = Some key
       /\ value = requestURL !! i
       /\ forall j curr', i < j -> routeURL !! j = Some curr' -> keyname curr' <> Some key.
Proof.
  unfold reduce.
  set (f := fun (acc : gmap string (option string)) (curr : string) (i : nat) =>
              if truthy (keyname curr)
              then <[default EmptyString (keyname curr) := requestURL !! i]> acc
              else acc).
  induction routeURL as [|x l IH] using rev_ind.
  - simpl. rewrite lookup_empty. split; [done|]. by intros (_ & i & curr & ? & _).
  - rewrite reduce_from_snoc. simpl. set (m := reduce_from f 0 ∅ l) in *.
    unfold f at 1.
    destruct (decide (keyname x = Some key /\ key <> EmptyString)) as [[Hx Hkey]|Hx].
    + rewrite Hx. simpl. destruct key as [|c key]; [done|]. simpl.
      rewrite lookup_insert_eq. split.
      * intros [= <-]. split; [done|]. exists (length l), x.
        rewrite list_lookup_middle by done. repeat split; [done|].
        intros j curr' Hj Hl. apply lookup_lt_Some in Hl.
        rewrite length_app in Hl. simpl in Hl. lia.
      * intros (_ & i & curr & Hi & _ & -> & Hlast).
        destruct (decide (i = length l)) as [->|Hne]; [done|].
        exfalso. apply (Hlast (length l) x); [|by apply list_lookup_middle|done].
        apply lookup_lt_Some in Hi. rewrite length_app in Hi. simpl in Hi. lia.
    + assert ((if truthy (keyname x)
               then <[default EmptyString (keyname x) := requestURL !! length l]> m
               else m) !! key = m !! key) as ->.
      { destruct (keyname x) as [[|c k]|] eqn:Ek; simpl; [done| |done].
        apply lookup_insert_ne. intros <-. apply Hx. by split. }
      rewrite IH. split.
      * intros (Hkey & i & curr & Hi & Hk & -> & Hlast). split; [done|].
        exists i, curr. apply lookup_lt_Some in Hi as Hlt.
        rewrite lookup_app_l by done. repeat split; [done..|].
        intros j curr' Hj Hl. destruct (decide (j = length l)) as [->|Hne].
        -- rewrite list_lookup_middle in Hl by done. injection Hl as <-.
           intros Hk'. apply Hx. by split.
        -- apply lookup_lt_Some in Hl as Hlt'. rewrite length_app in Hlt'. simpl in Hlt'.
           rewrite lookup_app_l in Hl by lia. by apply (Hlast j).
      * intros (Hkey & i & curr & Hi & Hk & -> & Hlast). split; [done|].
        destruct (decide (i = length l)) as [->|Hne].
        { rewrite list_lookup_middle in Hi by done. injection Hi as <-.
          exfalso. apply Hx. by split. }
        apply lookup_lt_Some in Hi as Hlt. rewrite length_app in Hlt. simpl in Hlt.
        rewrite lookup_app_l in Hi by lia.
        exists i, curr. repeat split; [done..|].
        intros j curr' Hj Hl. apply (Hlast j); [done|].
        apply lookup_lt_Some in Hl as Hlt'. by rewrite lookup_app_l.
Qed.

(** C2, as amended: the mapping holds exactly the names, non-empty, that
    the pattern's segments declare; a name is the text between a
    segment's first colon and its next colon or its end; its value is
    the request's segment (undefined when there is none) at the index of
    the last segment that declares the name.  Segments without a colon,
    and segments with an empty name, contribute nothing. *)
Theorem routeParams_entries (req : ServerRequest) (route : string) :
  (forall key value,
     routeParams req route !! key = Some value <->
     key <> EmptyString
     /\ exists i curr,
          split "/" route !! i = Some curr /\ keyname curr = Some key
          /\ value = split "/" (pathname (reqToURL req)) !! i
          /\ forall j curr', i < j -> split "/" route !! j = Some curr' ->
                             keyname curr' <> Some key)
  /\ (forall curr key,
        keyname curr = Some key <->
        exists a b, curr = a +:+ ":" +:+ key +:+ b
                    /\ includes ":" a = false /\ includes ":" key = false
                    /\ (b = EmptyString \/ startsWith ":" b = true)).
Proof.
  split; [|apply keyname_spec].
  intros key value. apply reduce_params_lookup.
Qed.

(** C2 as stated fails in three ways.  A segment whose name is empty
    contains a colon and yet gets no entry, whatever the key.  Of two
    segments that declare the same name only the last one's value is
    kept.  And a segment with two colons is entered under the text between
    them, not under what follows its first (or its last) colon. *)
Lemma routeParams_not_one_entry_per_segment :
  ~ (forall index curr,
       split "/" "/:" !! index = Some curr ->
       includes ":" curr = true ->
       exists key,
         routeParams (request "/x") "/:" !! key
         = Some (split "/" (pathname (reqToURL (request "/x"))) !! index))
  /\ ~ (forall index curr,
          split "/" "/:id/:id" !! index = Some curr ->
          includes ":" curr = true ->
          exists key,
            routeParams (request "/a/b") "/:id/:id" !! key
            = Some (split "/" (pathname (reqToURL (request "/a/b"))) !! index))
  /\ (routeParams (request "/v") "/x:id:rest" !! "id:rest" = None
      /\ routeParams (request "/v") "/x:id:rest" !! "rest" = None
      /\ routeParams (request "/v") "/x:id:rest" !! "id" = Some (Some "v")).
Proof.
  split; [|split].
  - intros Hclaim. destruct (Hclaim 1 ":" eq_refl eq_refl) as [key Hkey].
    assert (routeParams (request "/x") "/:" = ∅) as Hempty by reflexivity.
    by rewrite Hempty, lookup_empty in Hkey.
  - intros Hclaim. destruct (Hclaim 1 ":id" eq_refl eq_refl) as [key Hkey].
    assert (routeParams (request "/a/b") "/:id/:id" = {[ "id" := Some "b" ]}) as Hone
      by reflexivity.
    rewrite Hone in Hkey. apply lookup_singleton_Some in Hkey as [_ Hvalue].
    discriminate Hvalue.
  - repeat split; reflexivity.
Qed.

End RouteParams.

(** ** The encoders *)

Section Encoders.

Lemma unescape_encode_unit c rest :
  unescape_from 0 (encode_unit c +:+ rest) = utf8_unit c ++ unescape_from 0 rest.
Proof. destruct c as [[] [] [] [] [] [] [] []]; reflexivity. Qed.

(** [unescape(encodeURIComponent(s))] is the string of the UTF-8 bytes of [s]. *)
Lemma unescape_encodeURIComponent s : unescape (encodeURIComponent s) = utf8 s.
Proof.
  unfold unescape. induction s as [|c s IH]; [done|].
  simpl. by rewrite unescape_encode_unit, IH.
Qed.

Lemma utf8_unit_bytes c : forallb (fun n => n <=? 255)%N (utf8_unit c) = true.
Proof. destruct c as [[] [] [] [] [] [] [] []]; reflexivity. Qed.

Lemma utf8_bytes s : forallb (fun n => n <=? 255)%N (utf8 s) = true.
Proof.
  induction s as [|c s IH]; [done|].
  simpl. by rewrite forallb_app, utf8_unit_bytes, IH.
Qed.

(** So [btoa] never throws there, and yields the base64 text of those bytes. *)
Lemma btoa_unescape_encodeURIComponent s :
  btoa (unescape (encodeURIComponent s)) = Returned (base64 (utf8 s)).
Proof. unfold btoa. by rewrite unescape_encodeURIComponent, utf8_bytes. Qed.

(** Base64 text decodes to the bytes it was made from. *)
Lemma sextet_digit n :
  (n < 64)%N ->
  sextet (digit base64_alphabet n) = Some n /\ digit base64_alphabet n <> "="%char.
Proof.
  intros Hn. assert (exists k, k < 64 /\ n = N.of_nat k) as (k & Hk & ->).
  { exists (N.to_nat n). split; lia. }
  clear Hn.
  do 64 (destruct k as [|k]; [by split|apply Nat.succ_lt_mono in Hk]).
  lia.
Qed.

Lemma N_digits k p q :
  (q < k)%N -> ((p * k + q) / k = p /\ (p * k + q) mod k = q)%N.
Proof.
  intros Hq. split; symmetry.
  - apply (N.div_unique _ _ _ q); lia.
  - apply (N.mod_unique _ _ p); lia.
Qed.

Lemma base64_decode_quad c1 c2 c3 c4 rest s1 s2 s3 s4 :
  sextet c1 = Some s1 -> sextet c2 = Some s2 -> sextet c3 = Some s3 -> sextet c4 = Some s4 ->
  c3 <> "="%char -> c4 <> "="%char ->
  base64_decode (String c1 (String c2 (String c3 (String c4 rest))))
  = (fun l => (s1 * 4 + s2 / 16)%N :: (s2 mod 16 * 16 + s3 / 4)%N
              :: (s3 mod 4 * 64 + s4)%N :: l) <$> base64_decode rest.
Proof.
  intros H1 H2 H3 H4 Hc3 Hc4. simpl. rewrite H1, H2, H3, H4.
  by rewrite !decide_False by done.
Qed.

Lemma base64_decode_base64 l :
  Forall (fun n => n < 256)%N l -> base64_decode (base64 l) = Some l.
Proof.
  remember (length l) as n eqn:Hn. revert l Hn.
  induction n as [n IH] using lt_wf_ind. intros l -> Hl.
  destruct l as [|a [|b [|c rest]]]; [done|..].
  - apply Forall_cons in Hl as [Ha _].
    assert (a / 4 < 64)%N as H1 by (apply N.Div0.div_lt_upper_bound; lia).
    assert (a mod 4 < 4)%N as Hm by (apply N.mod_lt; lia).
    destruct (sextet_digit (a / 4) H1) as [E1 _].
    destruct (sextet_digit (a mod 4 * 16)) as [E2 _]; [lia|].
    simpl. rewrite E1, E2. simpl. do 2 f_equal.
    replace (a mod 4 * 16 / 16)%N with (a mod 4)%N by (by rewrite N.div_mul).
    pose proof (N.div_mod a 4). lia.
  - apply Forall_cons in Hl as [Ha Hl]. apply Forall_cons in Hl as [Hb _].
    assert (a / 4 < 64)%N as H1 by (apply N.Div0.div_lt_upper_bound; lia).
    assert (a mod 4 < 4)%N as Hm by (apply N.mod_lt; lia).
    assert (b / 16 < 16)%N as H2 by (apply N.Div0.div_lt_upper_bound; lia).
    assert (b mod 16 < 16)%N as Hm' by (apply N.mod_lt; lia).
    destruct (sextet_digit (a / 4) H1) as [E1 _].
    destruct (sextet_digit (a mod 4 * 16 + b / 16)) as [E2 _]; [lia|].
    destruct (sextet_digit (b mod 16 * 4)) as [E3 N3]; [lia|].
    simpl. rewrite E1, E2, E3. rewrite decide_False by done. simpl.
    destruct (N_digits 16 (a mod 4) (b / 16) H2) as [-> ->].
    replace (b mod 16 * 4 / 4)%N with (b mod 16)%N by (by rewrite N.div_mul).
    pose proof (N.div_mod a 4). pose proof (N.div_mod b 16).
    do 2 f_equal; [lia|f_equal; lia].
  - apply Forall_cons in Hl as [Ha Hl]. apply Forall_cons in Hl as [Hb Hl].
    apply Forall_cons in Hl as [Hc Hl].
    assert (a / 4 < 64)%N as H1 by (apply N.Div0.div_lt_upper_bound; lia).
    assert (a mod 4 < 4)%N as Hm by (apply N.mod_lt; lia).
    assert (b / 16 < 16)%N as H2 by (apply N.Div0.div_lt_upper_bound; lia).
    assert (b mod 16 < 16)%N as Hm' by (apply N.mod_lt; lia).
    assert (c / 64 < 4)%N as H3 by (apply N.Div0.div_lt_upper_bound; lia).
    assert (c mod 64 < 64)%N as H4 by (apply N.mod_lt; lia).
    destruct (sextet_digit (a / 4) H1) as [E1 _].
    destruct (sextet_digit (a mod 4 * 16 + b / 16)) as [E2 _]; [lia|].
    destruct (sextet_digit (b mod 16 * 4 + c / 64)) as [E3 N3]; [lia|].
    destruct (sextet_digit (c mod 64) H4) as [E4 N4].
    change (base64 (a :: b :: c :: rest))
      with (String (digit base64_alphabet (a / 4))
              (String (digit base64_alphabet (a mod 4 * 16 + b / 16))
                 (String (digit base64_alphabet (b mod 16 * 4 + c / 64))
                    (String (digit base64_alphabet (c mod 64)) (base64 rest))))).
    rewrite (base64_decode_quad _ _ _ _ _ _ _ _ _ E1 E2 E3 E4 N3 N4).
    rewrite (IH (length rest)) by (done || simpl; lia). simpl.
    destruct (N_digits 16 (a mod 4) (b / 16) H2) as [-> ->].
    destruct (N_digits 4 (b mod 16) (c / 64) H3) as [-> ->].
    pose proof (N.div_mod a 4). pose proof (N.div_mod b 16). pose proof (N.div_mod c 64).
    do 2 f_equal; [lia|f_equal; [lia|f_equal; lia]].
Qed.

Lemma utf8_Forall s : Forall (fun n => n < 256)%N (utf8 s).
Proof.
  pose proof (utf8_bytes s) as Hb. rewrite forallb_forall in Hb.
  apply Forall_forall. intros n Hn%list_elem_of_In%Hb%N.leb_le. lia.
Qed.

End Encoders.

(** ** The title pattern *)

Section TitleFacts.

Lemma toLowerCase_length s : String.length (Headers.toLowerCase s) = String.length s.
Proof. induction s as [|c s IH]; [done|]. simpl. by rewrite IH. Qed.

Lemma skip_append o r : skip (String.length o) (o +:+ r) = r.
Proof. induction o as [|c o IH]; [by destruct r|]. by rewrite append_cons. Qed.

Lemma startsWith_ignoreCase_inv p s :
  startsWith_ignoreCase p s = true ->
  exists o r, s = o +:+ r /\ Headers.toLowerCase o = Headers.toLowerCase p.
Proof.
  revert s. induction p as [|c p IH]; intros s Hp; [by exists EmptyString, s|].
  destruct s as [|d s]; [done|]. simpl in Hp.
  destruct (decide (Headers.lower_unit c = Headers.lower_unit d)) as [Hcd|]; [|done].
  destruct (IH s Hp) as (o & r & -> & Ho).
  exists (String d o), r. split; [done|]. simpl. by rewrite Ho, Hcd.
Qed.

Lemma startsWith_ignoreCase_append p o r :
  Headers.toLowerCase o = Headers.toLowerCase p ->
  startsWith_ignoreCase p (o +:+ r) = true.
Proof.
  revert o. induction p as [|c p IH]; intros o Ho; [done|].
  destruct o as [|d o]; [done|]. simpl in Ho. injection Ho as Hd Ho.
  rewrite append_cons. simpl. rewrite decide_True by done. by apply IH.
Qed.

Lemma dots_then_close_cons c s :
  dots_then_close (String c s)
  = if isLineTerminator c
    then (if startsWith_ignoreCase "</title>" (String c s) then Some EmptyString else None)
    else match dots_then_close s with
         | Some t => Some (String c t)
         | None => if startsWith_ignoreCase "</title>" (String c s)
                   then Some EmptyString else None
         end.
Proof. reflexivity. Qed.

Lemma dots_then_close_sound s t :
  dots_then_close s = Some t ->
  exists c b, s = t +:+ c +:+ b /\ Headers.toLowerCase c = "</title>"
              /\ hasLineTerminator t = false.
Proof.
  assert (Hhere : forall s t,
            (if startsWith_ignoreCase "</title>" s then Some EmptyString else None) = Some t ->
            exists c b, s = t +:+ c +:+ b /\ Headers.toLowerCase c = "</title>"
                        /\ hasLineTerminator t = false).
  { intros s0 t0. destruct (startsWith_ignoreCase "</title>" s0) eqn:Hc; [|done].
    intros [= <-]. apply startsWith_ignoreCase_inv in Hc as (c & b & -> & Hc).
    by exists c, b. }
  revert t. induction s as [|d s IH]; intros t; [apply Hhere|].
  rewrite dots_then_close_cons.
  destruct (isLineTerminator d) eqn:Hd; [apply Hhere|].
  destruct (dots_then_close s) as [t'|]; [|apply Hhere].
  intros [= <-]. destruct (IH t' eq_refl) as (c & b & -> & Hc & Ht).
  exists c, b. repeat split; [done|]. simpl. by rewrite Hd.
Qed.

Lemma dots_then_close_complete t c b :
  hasLineTerminator t = false -> Headers.toLowerCase c = "</title>" ->
  is_Some (dots_then_close (t +:+ c +:+ b)).
Proof.
  intros Ht Hc.
  assert (Hhere : is_Some (dots_then_close (c +:+ b))).
  { destruct (c +:+ b) as [|d s] eqn:E.
    - destruct c; [done|by rewrite append_cons in E].
    - rewrite dots_then_close_cons, <- E, startsWith_ignoreCase_append by done.
      destruct (isLineTerminator d); [done|]. by destruct (dots_then_close s). }
  induction t as [|d t IH]; [done|].
  simpl in Ht. apply orb_false_elim in Ht as [Hd Ht].
  rewrite append_cons, dots_then_close_cons, Hd.
  by destruct (IH Ht) as [t' ->].
Qed.

Lemma match_here_sound s t :
  match_here s = Some t ->
  exists o c b, s = o +:+ t +:+ c +:+ b
                /\ Headers.toLowerCase o = "<title>" /\ Headers.toLowerCase c = "</title>"
                /\ t <> EmptyString /\ hasLineTerminator t = false.
Proof.
  unfold match_here. destruct (startsWith_ignoreCase "<title>" s) eqn:Ho; [|done].
  apply startsWith_ignoreCase_inv in Ho as (o & r & -> & Ho).
  replace 7 with (String.length o)
    by (by rewrite <- toLowerCase_length, Ho).
  rewrite skip_append. destruct r as [|d r]; [done|].
  destruct (isLineTerminator d) eqn:Hd; [done|].
  destruct (dots_then_close r) as [t'|] eqn:Hr; [|done].
  intros [= <-]. apply dots_then_close_sound in Hr as (c & b & -> & Hc & Ht).
  exists o, c, b. repeat split; [done..|]. simpl. by rewrite Hd.
Qed.

Lemma match_title_cons s :
  match_title s
  = match match_here s with
    | Some t => Some t
    | None => match s with
              | EmptyString => None
              | String _ s' => match_title s'
              end
    end.
Proof. by destruct s. Qed.

(** What the pattern extracts lies between an opening and a closing
    title tag, is not empty and stays on one line. *)
Lemma match_title_sound s t :
  match_title s = Some t ->
  exists a o c b, s = a +:+ o +:+ t +:+ c +:+ b
                  /\ Headers.toLowerCase o = "<title>" /\ Headers.toLowerCase c = "</title>"
                  /\ t <> EmptyString /\ hasLineTerminator t = false.
Proof.
  induction s as [|d s IH]; rewrite match_title_cons.
  - destruct (match_here EmptyString) eqn:Hm; [|done].
    intros [= <-]. apply match_here_sound in Hm as (o & c & b & ? & ?).
    by exists EmptyString, o, c, b.
  - destruct (match_here (String d s)) eqn:Hm.
    + intros [= <-]. apply match_here_sound in Hm as (o & c & b & ? & ?).
      by exists EmptyString, o, c, b.
    + intros Hs. destruct (IH Hs) as (a & o & c & b & -> & ?).
      by exists (String d a), o, c, b.
Qed.

(** Every title tag with a non-empty text on one line makes the pattern match. *)
Lemma match_title_complete a o t c b :
  Headers.toLowerCase o = "<title>" -> Headers.toLowerCase c = "</title>" ->
  t <> EmptyString -> hasLineTerminator t = false ->
  is_Some (match_title (a +:+ o +:+ t +:+ c +:+ b)).
Proof.
  intros Ho Hc Ht Hl.
  assert (Hhere : is_Some (match_here (o +:+ t +:+ c +:+ b))).
  { unfold match_here. rewrite startsWith_ignoreCase_append by done.
    replace 7 with (String.length o) by (by rewrite <- toLowerCase_length, Ho).
    rewrite skip_append. destruct t as [|d t]; [done|].
    simpl in Hl. apply orb_false_elim in Hl as [Hd Hl].
    rewrite append_cons, Hd.
    by destruct (dots_then_close_complete t c b Hl Hc) as [t' ->]. }
  induction a as [|d a IH]; rewrite match_title_cons.
  - rewrite append_nil_l. by destruct Hhere as [t' ->].
  - destruct (match_here (String d a +:+ o +:+ t +:+ c +:+ b)); [done|].
    by rewrite append_cons.
Qed.

End TitleFacts.

(** ** Assembling a page response *)

(** Running asynchronous code: its steps are functions of the responses
    written so far. *)
Ltac run_async := unfold bind, await, ret, throw, respond, try_catch.

Section Assembly.

Context (req : ServerRequest) (page : Page) (config : Config) (pageData : PageData).
Hypothesis handled :
  handler page req (routeParams req (route page)) = Returned (Some pageData).

(** The wrapped body and the post-fragment, as a full page load emits them. *)
Let slot : list (option string) :=
  [Some ("<nattramn-router>" +:+ body pageData +:+ "</nattramn-router>")]
  ++ (if truthy (generatePostContent (template page) false)
      then [generatePostContent (template page) false] else []).

(** In a full page load whose handler gives no head, the pre-fragment is
    sent as a response of its own, and the assembly goes on: the wrapped
    body and the post-fragment come back as the page response. *)
Lemma proxy_head_absent (pre : string) (w : list Response) :
  partialContent req = false ->
  truthy (head pageData) = false ->
  generatePreContent (template page) false = Some pre ->
  pre <> EmptyString ->
  proxy req page config w
  = (Returned {| pr_status := 200;
                 pr_body := TextEncoder_encode (join LF slot);
                 pr_headers :=
                   Headers.set "Content-Type" "text/html" (Headers.new (pd_headers pageData)) |},
     w ++ [ {| resp_status := None; resp_headers := None;
               resp_body := Some (BodyString pre) |} ]).
Proof.
  intros Hpartial Hhead Hpre Hne.
  unfold proxy; run_async. rewrite handled, Hpartial, Hpre, Hhead.
  destruct pre as [|c pre]; [done|].
  change (truthy (Some (String c pre))) with true.
  cbn [negb andb]. unfold slot, LF.
  by destruct (truthy (generatePostContent (template page) false)).
Qed.

(** C9, on the code: where the pre-fragment has no [<head>] tag, the
    split has one element only, its second element is undefined, and the
    undefined fragment is emitted between the head markup and the
    wrapped body (the join renders it as an empty line). *)
Theorem proxy_pre_without_head_tag (pre h : string) (w : list Response) :
  partialContent req = false ->
  head pageData = Some h ->
  h <> EmptyString ->
  generatePreContent (template page) false = Some pre ->
  pre <> EmptyString ->
  indexOf "<head>" pre = (-1)%Z ->
  split "<head>" pre = [pre]
  /\ split "<head>" pre !! 1 = None
  /\ proxy req page config w
     = (Returned {| pr_status := 200;
                    pr_body :=
                      TextEncoder_encode
                        (join LF ([Some pre; Some ("<head>" +:+ h); None] ++ slot));
                    pr_headers :=
                      Headers.set "Content-Type" "text/html"
                        (Headers.new (pd_headers pageData)) |},
        w).
Proof.
  intros Hpartial Hhead Hh Hpre Hne Hnotag.
  assert (split "<head>" pre = [pre]) as Hsplit by by apply split_absent.
  split; [done|]. split; [by rewrite Hsplit|].
  unfold proxy; run_async. rewrite handled, Hpartial, Hpre, Hhead.
  destruct pre as [|c pre]; [done|]. destruct h as [|d h]; [done|].
  change (truthy (Some (String c pre))) with true.
  change (truthy (Some (String d h))) with true.
  cbn [negb andb from_option]. unfold id. rewrite Hsplit. unfold slot, LF.
  by destruct (truthy (generatePostContent (template page) false)).
Qed.

(** C6, as amended: in partial mode, when the title pattern matches the
    head, the page response carries an [X-Header-Updates] header whose
    value is the base64 text of the UTF-8 bytes of the JSON object
    [{ title }], and decodes to them, for the title the pattern extracts;
    that title lies between an opening and a closing title tag of the head
    (compared ignoring case), is not empty and holds no line terminator;
    and the pattern does match whenever the head holds a title tag with a
    non-empty text on one line.  The head ["<title>Home</title>"] gives
    the title [Home], and the value [eyJ0aXRsZSI6IkhvbWUifQ==], which
    decodes to the bytes of the JSON text of the object with title [Home]. *)
Theorem proxy_title_header (h : string) (w : list Response) :
  partialContent req = true ->
  head pageData = Some h ->
  (forall title,
     match_title h = Some title ->
     (exists r value,
        proxy req page config w = (Returned r, w)
        /\ Headers.get "X-Header-Updates" (pr_headers r) = Some value
        /\ value = base64 (utf8 (JSON_stringify_title title))
        /\ base64_decode value = Some (utf8 (JSON_stringify_title title)))
     /\ exists a o c b,
          h = a +:+ o +:+ title +:+ c +:+ b
          /\ Headers.toLowerCase o = "<title>" /\ Headers.toLowerCase c = "</title>"
          /\ title <> EmptyString /\ hasLineTerminator title = false)
  /\ (forall a o t c b,
        h = a +:+ o +:+ t +:+ c +:+ b ->
        Headers.toLowerCase o = "<title>" -> Headers.toLowerCase c = "</title>" ->
        t <> EmptyString -> hasLineTerminator t = false ->
        is_Some (match_title h))
  /\ (h = "<title>Home</title>" ->
      match_title h = Some "Home"
      /\ base64 (utf8 (JSON_stringify_title "Home")) = "eyJ0aXRsZSI6IkhvbWUifQ=="
      /\ JSON_stringify_title "Home"
         = String "{" (String quote ("title" +:+ String quote
             (":" +:+ String quote ("Home" +:+ String quote "}"))))).
Proof.
  intros Hpartial Hhead. split; [|split].
  - intros title Htitle. split; [|by apply match_title_sound].
    assert (truthy (Some h) = true) as Hh.
    { apply match_title_sound in Htitle as (a & o & c & b & -> & Ho & _).
      destruct a; [|done]. by destruct o. }
    unfold proxy; run_async.
    rewrite handled, Hpartial, Hhead, Hh.
    cbn [generatePreContent truthy negb andb from_option]. unfold id. rewrite Htitle.
    rewrite btoa_unescape_encodeURIComponent.
    eexists _, _. split; [reflexivity|]. split; [|split; [reflexivity|]].
    + cbn [pr_headers]. unfold Headers.get, Headers.set. apply lookup_insert_eq.
    + apply base64_decode_base64, utf8_Forall.
  - intros a o t c b -> Ho Hc Ht Hl. by apply match_title_complete.
  - by intros ->.
Qed.

End Assembly.

(** A template without a [<head>] tag: the undefined fragment shows as the
    empty line after the head markup. *)
Lemma proxy_pre_without_head_tag_witness :
  let page := Demo.page "/" "<div><nattramn-router></nattramn-router></div>"
                (Some "<title>T</title>") "<p>hi</p>" in
  split "<head>" "<div>" = ["<div>"]
  /\ split "<head>" "<div>" !! 1 = None
  /\ proxy (request "/") page (Demo.config None_ [page]) []
     = (Returned {| pr_status := 200;
                    pr_body :=
                      TextEncoder_encode
                        ("<div>" +:+ LF +:+ "<head><title>T</title>" +:+ LF +:+ LF
                         +:+ "<nattramn-router><p>hi</p></nattramn-router>" +:+ LF +:+ "</div>");
                    pr_headers := Headers.set "Content-Type" "text/html" ∅ |},
        []).
Proof.
  intros page.
  apply (proxy_pre_without_head_tag (request "/") page (Demo.config None_ [page])
           {| head := Some "<title>T</title>"; body := "<p>hi</p>"; pd_headers := None |}
           eq_refl "<div>" "<title>T</title>" []);
    [reflexivity|reflexivity|discriminate|reflexivity|discriminate|reflexivity].
Defined.

Lemma proxy_title_header_witness :
  let page := Demo.page "/" "<html><nattramn-router></nattramn-router></html>"
                (Some "<title>Home</title>") "<p>hi</p>" in
  exists r,
    proxy (partial_request "/") page (Demo.config None_ [page]) [] = (Returned r, [])
    /\ Headers.get "X-Header-Updates" (pr_headers r) = Some "eyJ0aXRsZSI6IkhvbWUifQ=="
    /\ base64_decode "eyJ0aXRsZSI6IkhvbWUifQ==" = Some (utf8 (JSON_stringify_title "Home")).
Proof.
  intros page.
  destruct (proxy_title_header (partial_request "/") page (Demo.config None_ [page])
              {| head := Some "<title>Home</title>"; body := "<p>hi</p>"; pd_headers := None |}
              eq_refl "<title>Home</title>" [] eq_refl eq_refl) as (Hvalue & _ & _).
  destruct (Hvalue "Home" eq_refl) as [(r & value & Hr & Hget & Hval & Hdec) _].
  exists r. rewrite Hval in Hget, Hdec.
  split; [exact Hr|]. split; [exact Hget|exact Hdec].
Defined.

(** C6 as stated fails on a title written over several lines, and on an
    empty title: the head holds a title tag, the request is in partial
    mode, and the response has no [X-Header-Updates] header.  And a head
    that contains [<title>Home</title>] followed by a second closing tag
    on the same line gets a value that is not the one of the title [Home]. *)
Lemma title_tag_without_header :
  partialContent (partial_request "/") = true
  /\ (let h := "<title>" +:+ LF +:+ "Home" +:+ LF +:+ "</title>" in
      let page := Demo.page "/" "<html><nattramn-router></nattramn-router></html>"
                    (Some h) "<p>hi</p>" in
      exists r,
        proxy (partial_request "/") page (Demo.config None_ [page]) [] = (Returned r, [])
        /\ Headers.get "X-Header-Updates" (pr_headers r) = None)
  /\ (let page := Demo.page "/" "<html><nattramn-router></nattramn-router></html>"
                    (Some "<title></title>") "<p>hi</p>" in
      exists r,
        proxy (partial_request "/") page (Demo.config None_ [page]) [] = (Returned r, [])
        /\ Headers.get "X-Header-Updates" (pr_headers r) = None)
  /\ (let h := "<title>Home</title><svg><title>logo</title></svg>" in
      let page := Demo.page "/" "<html><nattramn-router></nattramn-router></html>"
                    (Some h) "<p>hi</p>" in
      exists r,
        proxy (partial_request "/") page (Demo.config None_ [page]) [] = (Returned r, [])
        /\ Headers.get "X-Header-Updates" (pr_headers r)
           = Some (base64 (utf8 (JSON_stringify_title "Home</title><svg><title>logo")))
        /\ Headers.get "X-Header-Updates" (pr_headers r)
           <> Some (base64 (utf8 (JSON_stringify_title "Home")))).
Proof.
  split; [reflexivity|]. split; [|split].
  - eexists. split; reflexivity.
  - eexists. split; reflexivity.
  - eexists. split; [reflexivity|]. split; [reflexivity|]. discriminate.
Qed.

(** ** The server *)

Section Server.

Context `{Platform}.

Lemma Headers_get_set_eq a b v h :
  Headers.toLowerCase a = Headers.toLowerCase b ->
  Headers.get a (Headers.set b v h) = Some v.
Proof. intros Hab. unfold Headers.get, Headers.set. rewrite Hab. apply lookup_insert_eq. Qed.

Lemma Headers_get_set_ne a b v h :
  Headers.toLowerCase a <> Headers.toLowerCase b ->
  Headers.get a (Headers.set b v h) = Headers.get a h.
Proof. intros Hab. unfold Headers.get, Headers.set. by apply lookup_insert_ne. Qed.

(** What [proxy] writes and returns: the status of a page response is
    200, and the only response it writes itself (the pre-fragment, for a
    page without head) is given no status and no headers of its own. *)
Lemma proxy_outcome req page config w o w' :
  proxy req page config w = (o, w') ->
  (forall r, o = Returned r -> pr_status r = 200)
  /\ exists extra,
       w' = w ++ extra
       /\ Forall (fun resp => resp_status resp = None /\ resp_headers resp = None) extra.
Proof.
  unfold proxy; run_async. intros Heq.
  repeat case_match; simplify_eq;
    (split; [by intros ? [= <-]|]);
    first [ by exists []; rewrite app_nil_r
          | by eexists; split; [reflexivity|repeat constructor] ].
Qed.

Lemma serveStatic_outcome req filePath serverConfig w o w' :
  serveStatic req filePath serverConfig w = (o, w') ->
  (forall r, o = Returned r -> pr_status r = 200) /\ w' = w.
Proof.
  unfold serveStatic; run_async. intros Heq.
  repeat case_match; simplify_eq; by (split; [intros ? [= <-]|]).
Qed.

Lemma handleRequest_outcome config req w o w' :
  handleRequest config req w = (o, w') ->
  (forall r, o = Returned r -> pr_status r = 200)
  /\ exists extra,
       w' = w ++ extra
       /\ Forall (fun resp => resp_status resp = None /\ resp_headers resp = None) extra.
Proof.
  unfold handleRequest; run_async. intros Heq.
  repeat case_match; simplify_eq;
    try (apply serveStatic_outcome in Heq as [? ->]);
    try (by eapply proxy_outcome);
    (split; [done || by intros ? [= <-]|]); by exists []; rewrite app_nil_r.
Qed.

(** The response that ends a turn of the loop. *)
Lemma handleRequests_step_returned config req r w w' :
  handleRequest config req w = (Returned r, w') ->
  let headers := Headers.set "ETag" (Sha1_hex (pr_body r)) (pr_headers r) in
  let headers :=
    if bool_decide (Headers.get "Cache-Control" headers = None)
    then Headers.set "Cache-Control" "public, max-age=3600" headers
    else headers in
  let headers :=
    if useGzip config req then Headers.set "Content-Encoding" "gzip" headers else headers in
  let body := if useGzip config req then gzipEncode (pr_body r) else pr_body r in
  let headers :=
    if useBrotli config req then Headers.set "Content-Encoding" "br" headers else headers in
  let body := if useBrotli config req then brotliEncode body else body in
  handleRequests_step config req w
  = (Returned tt,
     w' ++ [ {| resp_body := Some (BodyBytes body);
                resp_status := Some (pr_status r);
                resp_headers :=
                  Some (Headers.set "Content-Length" (String_of_nat (length body)) headers) |} ]).
Proof.
  intros Heq. unfold handleRequests_step; run_async. rewrite Heq.
  by destruct (useGzip config req), (useBrotli config req).
Qed.

Lemma handleRequests_step_thrown config req e w w' :
  handleRequest config req w = (Thrown e, w') ->
  handleRequests_step config req w
  = (Returned tt,
     w' ++ [ {| resp_status := Some 404; resp_body := Some (BodyString "Not Found");
                resp_headers := None |} ]).
Proof.
  intros Heq. unfold handleRequests_step; run_async. by rewrite Heq.
Qed.

Lemma compression_is_spec config m :
  compression_is config m = true <-> compression (server config) = Some m.
Proof.
  unfold compression_is. destruct (compression (server config)) as [m'|]; [|done].
  rewrite bool_decide_eq_true. split; [|by intros [= ->]].
  by destruct m', m.
Qed.

Lemma accept_encoding_includes_spec req name :
  accept_encoding_includes req name = true <->
  exists v, Headers.get "accept-encoding" (req_headers req) = Some v
            /\ includes name v = true.
Proof.
  unfold accept_encoding_includes.
  destruct (Headers.get "accept-encoding" (req_headers req)) as [v|].
  - split; [by exists v|by intros (? & [= <-] & ?)].
  - split; [done|by intros (? & ? & _)].
Qed.

(** C5: gzip is applied exactly when the configured method is gzip and
    the accept-encoding header contains [gzip]; brotli exactly when the
    method is br and the header contains [br]; never both.  The response
    then has the Content-Encoding header of the method applied and the
    encoded bytes for its body; when neither applies (as with the method
    none, whatever the accept-encoding header says) the body is sent as
    it is and no Content-Encoding header is set. *)
Theorem compression_negotiation config req :
  (useGzip config req = true <->
   compression (server config) = Some Gzip
   /\ exists v, Headers.get "accept-encoding" (req_headers req) = Some v
                /\ includes "gzip" v = true)
  /\ (useBrotli config req = true <->
      compression (server config) = Some Brotli
      /\ exists v, Headers.get "accept-encoding" (req_headers req) = Some v
                   /\ includes "br" v = true)
  /\ ~ (useGzip config req = true /\ useBrotli config req = true)
  /\ (compression (server config) = Some None_ ->
      useGzip config req = false /\ useBrotli config req = false)
  /\ forall r w w',
       handleRequest config req w = (Returned r, w') ->
       exists headers body,
         handleRequests_step config req w
         = (Returned tt,
            w' ++ [ {| resp_body := Some (BodyBytes body);
                       resp_status := Some (pr_status r);
                       resp_headers := Some headers |} ])
         /\ (useGzip config req = true ->
             body = gzipEncode (pr_body r)
             /\ Headers.get "Content-Encoding" headers = Some "gzip")
         /\ (useBrotli config req = true ->
             body = brotliEncode (pr_body r)
             /\ Headers.get "Content-Encoding" headers = Some "br")
         /\ (useGzip config req = false -> useBrotli config req = false ->
             body = pr_body r
             /\ Headers.get "Content-Encoding" headers
                = Headers.get "Content-Encoding" (pr_headers r)).
Proof.
  assert (Hgzip : useGzip config req = true <->
            compression (server config) = Some Gzip
            /\ exists v, Headers.get "accept-encoding" (req_headers req) = Some v
                         /\ includes "gzip" v = true).
  { unfold useGzip. by rewrite andb_true_iff, compression_is_spec,
      accept_encoding_includes_spec. }
  assert (Hbr : useBrotli config req = true <->
            compression (server config) = Some Brotli
            /\ exists v, Headers.get "accept-encoding" (req_headers req) = Some v
                         /\ includes "br" v = true).
  { unfold useBrotli. by rewrite andb_true_iff, compression_is_spec,
      accept_encoding_includes_spec. }
  assert (Hboth : ~ (useGzip config req = true /\ useBrotli config req = true)).
  { rewrite Hgzip, Hbr. intros [[Hg _] [Hb _]]. congruence. }
  split; [done|]. split; [done|]. split; [done|]. split.
  { intros Hnone. split; apply not_true_is_false.
    - rewrite Hgzip. intros [Hg _]. congruence.
    - rewrite Hbr. intros [Hb _]. congruence. }
  intros r w w' Heq. rewrite (handleRequests_step_returned _ _ _ _ _ Heq).
  eexists _, _. split; [reflexivity|].
  destruct (useGzip config req) eqn:Eg, (useBrotli config req) eqn:Eb;
    try (exfalso; by apply Hboth);
    (split; [intros ?|split; [intros ?|intros ? ?]]); try done.
  - split; [done|]. by rewrite Headers_get_set_ne, Headers_get_set_eq.
  - split; [done|]. by rewrite Headers_get_set_ne, Headers_get_set_eq.
  - split; [done|]. rewrite Headers_get_set_ne by done.
    case_bool_decide; by rewrite ?Headers_get_set_ne by done.
Qed.

(** C8: the response that answers a handled request carries a
    Content-Length header that is the decimal length of the body it is
    sent with, which is the body after compression.  (The one other
    response a handled request can have, the pre-fragment of a page
    without head, is written with no headers of its own.) *)
Theorem content_length_exact config req r w w' :
  handleRequest config req w = (Returned r, w') ->
  exists headers body,
    handleRequests_step config req w
    = (Returned tt,
       w' ++ [ {| resp_body := Some (BodyBytes body);
                  resp_status := Some (pr_status r);
                  resp_headers := Some headers |} ])
    /\ Headers.get "Content-Length" headers = Some (String_of_nat (length body))
    /\ body = (if useBrotli config req then brotliEncode else id)
                ((if useGzip config req then gzipEncode else id) (pr_body r))
    /\ exists extra,
         w' = w ++ extra /\ Forall (fun resp => resp_headers resp = None) extra.
Proof.
  intros Heq. rewrite (handleRequests_step_returned _ _ _ _ _ Heq).
  eexists _, _. split; [reflexivity|]. split; [by apply Headers_get_set_eq|].
  split; [by destruct (useGzip config req), (useBrotli config req)|].
  apply handleRequest_outcome in Heq as [_ (extra & -> & Hextra)].
  exists extra. split; [done|]. eapply Forall_impl; [exact Hextra|]. by intros ? [_ ?].
Qed.

(** C10: a response that [handleRequest] returns has status 200, on every
    path; and each response the server writes is sent with status 200
    (given as such, or left to the default of the server library) or with
    status 404. *)
Theorem statuses_200_or_404 config :
  (forall req w r w', handleRequest config req w = (Returned r, w') -> pr_status r = 200)
  /\ forall server,
       Forall (Forall (fun resp => statusCode resp = 200 \/ statusCode resp = 404))
         (handleRequests config server).
Proof.
  assert (Hdefault : forall extra,
            Forall (fun resp => resp_status resp = None /\ resp_headers resp = None) extra ->
            Forall (fun resp => statusCode resp = 200 \/ statusCode resp = 404) extra).
  { intros extra Hextra. eapply Forall_impl; [exact Hextra|].
    intros resp [Hs _]. left. unfold statusCode. by rewrite Hs. }
  split.
  - intros req w r w' Heq. by apply handleRequest_outcome in Heq as [Hr _]; apply Hr.
  - intros server. unfold handleRequests. apply Forall_fmap, Forall_forall.
    intros req _. simpl.
    destruct (handleRequest config req []) as [[r|e] w'] eqn:Heq.
    + rewrite (handleRequests_step_returned _ _ _ _ _ Heq). simpl.
      apply handleRequest_outcome in Heq as [Hr (extra & -> & Hextra)].
      apply Forall_app. split; [by apply Hdefault|].
      apply Forall_singleton. left. unfold statusCode. simpl. by rewrite (Hr r).
    + rewrite (handleRequests_step_thrown _ _ _ _ _ Heq). simpl.
      apply handleRequest_outcome in Heq as [_ (extra & -> & Hextra)].
      apply Forall_app. split; [by apply Hdefault|].
      apply Forall_singleton. by right.
Qed.

(** C3, on the code: in a full page load whose handler gives no head, the
    pre-fragment is sent as a response of its own, and the assembly does
    not stop there: the wrapped body and the post-fragment are assembled
    into the page response, which the server finalises and sends as a
    second response for the same request. *)
Theorem head_absent_answered_twice config req page pageData pre matched w :
  String_match (pathname (reqToURL req))
    (default EmptyString (cfg_serveStatic (server config))) = Returned matched ->
  extname (pathname (reqToURL req)) = EmptyString ->
  List.find (fun page => canHandleRoute req (route page)) (pages (router config))
  = Some page ->
  handler page req (routeParams req (route page)) = Returned (Some pageData) ->
  partialContent req = false ->
  truthy (head pageData) = false ->
  generatePreContent (template page) false = Some pre ->
  pre <> EmptyString ->
  exists headers,
    handleRequests_step config req w
    = (Returned tt,
       w ++ [ {| resp_status := None; resp_headers := None;
                 resp_body := Some (BodyString pre) |};
              {| resp_body :=
                   Some (BodyBytes
                           ((if useBrotli config req then brotliEncode else id)
                              ((if useGzip config req then gzipEncode else id)
                                 (TextEncoder_encode
                                    (join LF
                                       ([Some ("<nattramn-router>" +:+ body pageData
                                               +:+ "</nattramn-router>")]
                                        ++ (if truthy (generatePostContent (template page) false)
                                            then [generatePostContent (template page) false]
                                            else [])))))));
                 resp_status := Some 200;
                 resp_headers := Some headers |} ]).
Proof.
  intros Hmatch Hext Hfind Hhandled Hpartial Hhead Hpre Hne.
  assert (handleRequest config req w = proxy req page config w) as Hproxy.
  { unfold handleRequest; run_async. rewrite Hmatch, Hext, Hfind.
    by rewrite bool_decide_eq_true_2. }
  rewrite (proxy_head_absent _ _ _ _ Hhandled pre w Hpartial Hhead Hpre Hne) in Hproxy.
  rewrite (handleRequests_step_returned _ _ _ _ _ Hproxy). cbn [pr_body pr_status].
  destruct (useGzip config req), (useBrotli config req);
    eexists; rewrite <- app_assoc; reflexivity.
Qed.

(** C4, on the code: with no static prefix configured, the pattern that
    is matched against the path is the empty one, which matches every
    path; so a path with an extension (other than the client bundle) is
    resolved as the file of that path below the working directory, and
    an existing file is served with status 200. *)
Theorem static_without_prefix config req content w :
  cfg_serveStatic (server config) = None ->
  extname (pathname (reqToURL req)) <> EmptyString ->
  pathname (reqToURL req) <> "/nattramn-client.js" ->
  Deno_readFile ("." +:+ pathname (reqToURL req)) = Returned content ->
  handleRequest config req w
  = serveStatic req (pathname (reqToURL req)) (server config) w
  /\ exists r resp,
       handleRequest config req w = (Returned r, w)
       /\ pr_status r = 200 /\ pr_body r = content
       /\ handleRequests_step config req w = (Returned tt, w ++ [resp])
       /\ resp_status resp = Some 200.
Proof.
  intros Hnone Hext Hbundle Hfile.
  assert (handleRequest config req w
          = serveStatic req (pathname (reqToURL req)) (server config) w) as Hstatic.
  { unfold handleRequest; run_async. rewrite Hnone. simpl.
    rewrite String_match_empty. by rewrite !bool_decide_eq_false_2. }
  split; [done|].
  assert (exists r, handleRequest config req w = (Returned r, w)
                    /\ pr_status r = 200 /\ pr_body r = content) as (r & Hr & Hs & Hb).
  { rewrite Hstatic. unfold serveStatic; run_async. rewrite Hfile.
    by eexists. }
  exists r. eexists. split; [done|]. split; [done|]. split; [done|].
  rewrite (handleRequests_step_returned _ _ _ _ _ Hr). split; [reflexivity|].
  simpl. by rewrite Hs.
Qed.

End Server.

Lemma head_absent_answered_twice_witness :
  let page := Demo.page "/" "<html><nattramn-router></nattramn-router></html>" None "<p>hi</p>" in
  exists headers,
    @handleRequests_step Demo.platform (Demo.config None_ [page]) (request "/") []
    = (Returned tt,
       [] ++ [ {| resp_status := None; resp_headers := None;
                  resp_body := Some (BodyString "<html>") |};
               {| resp_body :=
                    Some (BodyBytes
                            (TextEncoder_encode
                               ("<nattramn-router><p>hi</p></nattramn-router>"
                                +:+ LF +:+ "</html>")));
                  resp_status := Some 200;
                  resp_headers := Some headers |} ]).
Proof.
  intros page.
  apply (@head_absent_answered_twice Demo.platform (Demo.config None_ [page]) (request "/")
           page {| head := None; body := "<p>hi</p>"; pd_headers := None |} "<html>" true []);
    [reflexivity|reflexivity|reflexivity|reflexivity|reflexivity|reflexivity|reflexivity
    |discriminate].
Defined.

Lemma static_without_prefix_witness :
  let req := request "/notes.txt" in
  @handleRequest Demo.platform (Demo.config None_ []) req []
  = @serveStatic Demo.platform req "/notes.txt" (server (Demo.config None_ [])) []
  /\ exists r resp,
       @handleRequest Demo.platform (Demo.config None_ []) req [] = (Returned r, [])
       /\ pr_status r = 200 /\ pr_body r = TextEncoder_encode "private notes"
       /\ @handleRequests_step Demo.platform (Demo.config None_ []) req []
          = (Returned tt, [] ++ [resp])
       /\ resp_status resp = Some 200.
Proof.
  intros req.
  apply (@static_without_prefix Demo.platform (Demo.config None_ []) req
           (TextEncoder_encode "private notes") []);
    [reflexivity|discriminate|discriminate|reflexivity].
Defined.

Lemma content_length_exact_witness :
  let page := Demo.page "/" "<html><nattramn-router></nattramn-router></html>"
                (Some "<title>Home</title>") "<p>hi</p>" in
  let req := {| req_url := {| pathname := "/"; searchParams := [] |};
                req_headers := Headers.set "Accept-Encoding" "gzip, br" ∅ |} in
  exists r headers body,
    @handleRequest Demo.platform (Demo.config Gzip [page]) req [] = (Returned r, [])
    /\ @handleRequests_step Demo.platform (Demo.config Gzip [page]) req []
       = (Returned tt,
          [] ++ [ {| resp_body := Some (BodyBytes body);
                     resp_status := Some (pr_status r);
                     resp_headers := Some headers |} ])
    /\ Headers.get "Content-Length" headers = Some (String_of_nat (length body))
    /\ body = @gzipEncode Demo.platform (pr_body r).
Proof.
  intros page req. eexists.
  destruct (@content_length_exact Demo.platform (Demo.config Gzip [page]) req _ [] []
              eq_refl) as (headers & body & Hstep & Hlen & Hbody & _).
  exists headers, body. split; [reflexivity|]. split; [exact Hstep|].
  split; [exact Hlen|exact Hbody].
Defined.

(** ** The pipeline on whole requests *)

Example end_to_end :
  let page := Demo.page "/users/:id"
                "<html><head></head><body><nattramn-router></nattramn-router></body></html>"
                (Some "<title>U</title>") "<p>123</p>" in
  exists headers,
    @handleRequests Demo.platform (Demo.config None_ [page]) [request "/users/123"]
    = [[ {| resp_status := Some 200; resp_headers := Some headers;
            resp_body :=
              Some (BodyBytes
                      (TextEncoder_encode
                         ("<html>" +:+ LF +:+ "<head><title>U</title>" +:+ LF
                          +:+ "</head><body>" +:+ LF
                          +:+ "<nattramn-router><p>123</p></nattramn-router>" +:+ LF
                          +:+ "</body></html>"))) |} ]]
    /\ Headers.get "Content-Encoding" headers = None
    /\ Headers.get "Content-Length" headers = Some "104".
Proof. eexists. split; [reflexivity|]. split; reflexivity. Qed.

Example route_examples :
  canHandleRoute (request "/users/123") "/users/:id" = true
  /\ canHandleRoute (request "/users/123/edit") "/users/:id" = false
  /\ canHandleRoute (request "/posts/123") "/users/:id" = false
  /\ routeParams (request "/users/123") "/users/:id" = {[ "id" := Some "123" ]}
  /\ routeParams (request "/a/b") "/:id/:id" = {[ "id" := Some "b" ]}
  /\ keyname "x:id:rest" = Some "id".
Proof. repeat split; reflexivity. Qed.

Example compression_examples :
  let page := Demo.page "/" "<html><nattramn-router></nattramn-router></html>"
                (Some "<title>Home</title>") "<p>hi</p>" in
  let req := {| req_url := {| pathname := "/"; searchParams := [] |};
                req_headers := Headers.set "Accept-Encoding" "gzip, br" ∅ |} in
  (exists headers body,
     @handleRequests Demo.platform (Demo.config Gzip [page]) [req]
     = [[ {| resp_status := Some 200; resp_headers := Some headers;
             resp_body := Some (BodyBytes (x1f :: x8b :: body)) |} ]]
     /\ Headers.get "Content-Encoding" headers = Some "gzip")
  /\ (exists headers body,
        @handleRequests Demo.platform (Demo.config None_ [page]) [req]
        = [[ {| resp_status := Some 200; resp_headers := Some headers;
                resp_body := Some (BodyBytes body) |} ]]
        /\ Headers.get "Content-Encoding" headers = None).
Proof. split; eexists _, _; split; reflexivity. Qed.

Example missing_file_not_found :
  @handleRequests Demo.platform (Demo.config None_ []) [request "/other.txt"]
  = [[ {| resp_status := Some 404; resp_body := Some (BodyString "Not Found");
          resp_headers := None |} ]].
Proof. reflexivity. Qed.

(** * Further properties of the pipeline *)

(** ** The page response, in general *)

Section PageResponse.

Context (req : ServerRequest) (page : Page) (config : Config) (pageData : PageData).
Hypothesis handled :
  handler page req (routeParams req (route page)) = Returned (Some pageData).

(** Once the handler has returned page data, [proxy] returns: the base64
    step cannot throw.  Its result, with the monad run. *)
Lemma proxy_handled (w : list Response) :
  let preContent := generatePreContent (template page) (partialContent req) in
  let postContent := generatePostContent (template page) (partialContent req) in
  let headers :=
    Headers.set "Content-Type" "text/html" (Headers.new (pd_headers pageData)) in
  let headers :=
    if negb (truthy preContent) && truthy (head pageData) then
      match match_title (default EmptyString (head pageData)) with
      | Some title =>
          Headers.set "X-Header-Updates" (base64 (utf8 (JSON_stringify_title title))) headers
      | None => headers
      end
    else headers in
  let front :=
    if truthy preContent && truthy (head pageData) then
      [split "<head>" (default EmptyString preContent) !! 0;
       Some ("<head>" +:+ default EmptyString (head pageData));
       split "<head>" (default EmptyString preContent) !! 1]
    else [] in
  let written :=
    if truthy preContent && negb (truthy (head pageData)) then
      [ {| resp_status := None; resp_headers := None;
           resp_body := BodyString <$> preContent |} ]
    else [] in
  proxy req page config w
  = (Returned {| pr_status := 200;
                 pr_body :=
                   TextEncoder_encode
                     (join LF
                        (front
                         ++ [Some (if partialContent req then body pageData
                                   else "<nattramn-router>" +:+ body pageData
                                        +:+ "</nattramn-router>")]
                         ++ (if truthy postContent then [postContent] else [])));
                 pr_headers := headers |},
     w ++ written).
Proof.
  unfold proxy; run_async. rewrite handled.
  destruct (truthy (generatePreContent (template page) (partialContent req))) eqn:Hpre,
    (truthy (head pageData)) eqn:Hhead; cbn [negb andb]; unfold LF;
    try destruct (match_title (default EmptyString (head pageData))) as [title|];
    rewrite ?btoa_unescape_encodeURIComponent;
    destruct (truthy (generatePostContent (template page) (partialContent req)));
    by rewrite ?app_nil_r.
Qed.

(** X1: in partial-content mode the page response is the handler's body
    alone, as UTF-8 bytes, whatever the template and the head are; and
    [proxy] writes nothing on the connection. *)
Theorem partial_response_is_body (w : list Response) :
  partialContent req = true ->
  exists r,
    proxy req page config w = (Returned r, w)
    /\ pr_status r = 200
    /\ pr_body r = TextEncoder_encode (body pageData).
Proof.
  intros Hpartial. rewrite proxy_handled, Hpartial. cbn [generatePreContent
    generatePostContent truthy andb]. rewrite (app_nil_r w).
  eexists. split; [reflexivity|]. split; reflexivity.
Qed.

(** X2: a full page load.  For a template [pre + open + inner + close + post]
    with one marker of each kind, whose pre-fragment [p1 + <head> + p2]
    holds one [<head>] tag, and a handler that gives a non-empty head, the
    body is made of [p1], the head markup, [p2], the handler's body
    wrapped in the router markers, and the post-fragment if it is not
    empty, joined by line feeds; the template's own inner content is left
    out, and nothing is written on the connection. *)
Theorem full_page_assembly (p1 p2 inner post h : string) (w : list Response) :
  partialContent req = false ->
  head pageData = Some h ->
  h <> EmptyString ->
  template page
  = (p1 +:+ "<head>" +:+ p2) +:+ "<nattramn-router>" +:+ inner
    +:+ "</nattramn-router>" +:+ post ->
  occurrences "<nattramn-router>" (template page) = 1 ->
  occurrences "</nattramn-router>" (template page) = 1 ->
  occurrences "<head>" (p1 +:+ "<head>" +:+ p2) = 1 ->
  exists r,
    proxy req page config w = (Returned r, w)
    /\ pr_body r
       = TextEncoder_encode
           (join LF
              ([Some p1; Some ("<head>" +:+ h); Some p2;
                Some ("<nattramn-router>" +:+ body pageData +:+ "</nattramn-router>")]
               ++ (if truthy (Some post) then [Some post] else []))).
Proof.
  intros Hpartial Hhead Hh Htemplate Hopen Hclose Hone.
  assert (generatePreContent (template page) false = Some (p1 +:+ "<head>" +:+ p2)) as Hpre.
  { rewrite Htemplate in *. by apply generatePreContent_before. }
  assert (generatePostContent (template page) false = Some post) as Hpost.
  { rewrite Htemplate in *.
    rewrite <- (append_assoc "<nattramn-router>" inner),
      <- (append_assoc (p1 +:+ "<head>" +:+ p2)) in *.
    by apply generatePostContent_after. }
  assert (split "<head>" (p1 +:+ "<head>" +:+ p2) = [p1; p2]) as Hsplit.
  { rewrite split_first by (done || by apply occurrences_first).
    by rewrite (split_absent _ p2)
      by (done || by eapply occurrences_none, occurrences_after). }
  assert (truthy (Some (p1 +:+ "<head>" +:+ p2)) = true) as Htruthy by by destruct p1.
  assert (truthy (Some h) = true) as Hhtruthy by by destruct h.
  rewrite proxy_handled, Hpartial, Hpre, Hpost, Hhead, Htruthy, Hhtruthy.
  cbn [negb andb from_option]. unfold id. rewrite Hsplit, (app_nil_r w).
  eexists. split; reflexivity.
Qed.

(** X3: a template without router markers.  Both fragments are then the
    whole template, so a full page load carries the template twice: split
    at its [<head>] tag before the wrapped body, and whole after it. *)
Theorem markerless_template_twice (p1 p2 h : string) (w : list Response) :
  partialContent req = false ->
  head pageData = Some h ->
  h <> EmptyString ->
  template page = p1 +:+ "<head>" +:+ p2 ->
  occurrences "<head>" (template page) = 1 ->
  indexOf "<nattramn-router>" (template page) = (-1)%Z ->
  indexOf "</nattramn-router>" (template page) = (-1)%Z ->
  generatePreContent (template page) false = Some (template page)
  /\ generatePostContent (template page) false = Some (template page)
  /\ exists r,
       proxy req page config w = (Returned r, w)
       /\ pr_body r
          = TextEncoder_encode
              (join LF
                 [Some p1; Some ("<head>" +:+ h); Some p2;
                  Some ("<nattramn-router>" +:+ body pageData +:+ "</nattramn-router>");
                  Some (template page)]).
Proof.
  intros Hpartial Hhead Hh Htemplate Hone Hopen Hclose.
  assert (generatePreContent (template page) false = Some (template page)) as Hpre
    by (unfold generatePreContent; by rewrite Hopen).
  assert (generatePostContent (template page) false = Some (template page)) as Hpost
    by (unfold generatePostContent; by rewrite Hclose).
  split; [done|]. split; [done|].
  assert (split "<head>" (template page) = [p1; p2]) as Hsplit.
  { rewrite Htemplate in *.
    rewrite split_first by (done || by apply occurrences_first).
    by rewrite (split_absent _ p2)
      by (done || by eapply occurrences_none, occurrences_after). }
  assert (truthy (Some (template page)) = true) as Htruthy
    by (rewrite Htemplate; by destruct p1).
  assert (truthy (Some h) = true) as Hhtruthy by by destruct h.
  rewrite proxy_handled, Hpartial, Hpre, Hpost, Hhead, Htruthy, Hhtruthy.
  cbn [negb andb from_option]. unfold id. rewrite Hsplit, (app_nil_r w).
  eexists. split; reflexivity.
Qed.



End PageResponse.

Lemma partial_response_is_body_witness :
  let page := Demo.page "/" "<html><head></head><nattramn-router></nattramn-router></html>"
                (Some "<title>Home</title>") "<p>hi</p>" in
  exists r,
    proxy (partial_request "/") page (Demo.config None_ [page]) [] = (Returned r, [])
    /\ pr_status r = 200
    /\ pr_body r = TextEncoder_encode "<p>hi</p>".
Proof.
  intros page.
  apply (partial_response_is_body (partial_request "/") page (Demo.config None_ [page])
           {| head := Some "<title>Home</title>"; body := "<p>hi</p>"; pd_headers := None |}
           eq_refl [] eq_refl).
Defined.

Lemma full_page_assembly_witness :
  let page := Demo.page "/"
                "<html><head></head><body><nattramn-router>old</nattramn-router></body></html>"
                (Some "<title>U</title>") "<p>new</p>" in
  exists r,
    proxy (request "/") page (Demo.config None_ [page]) [] = (Returned r, [])
    /\ pr_body r
       = TextEncoder_encode
           ("<html>" +:+ LF +:+ "<head><title>U</title>" +:+ LF +:+ "</head><body>" +:+ LF
            +:+ "<nattramn-router><p>new</p></nattramn-router>" +:+ LF +:+ "</body></html>").
Proof.
  intros page.
  apply (full_page_assembly (request "/") page (Demo.config None_ [page])
           {| head := Some "<title>U</title>"; body := "<p>new</p>"; pd_headers := None |}
           eq_refl "<html>" "</head><body>" "old" "</body></html>" "<title>U</title>" []);
    [reflexivity|reflexivity|discriminate|reflexivity|reflexivity|reflexivity|reflexivity].
Defined.

Lemma markerless_template_twice_witness :
  let page := Demo.page "/" "<html><head></head></html>" (Some "<title>U</title>") "<p>x</p>" in
  generatePreContent (template page) false = Some "<html><head></head></html>"
  /\ generatePostContent (template page) false = Some "<html><head></head></html>"
  /\ exists r,
       proxy (request "/") page (Demo.config None_ [page]) [] = (Returned r, [])
       /\ pr_body r
          = TextEncoder_encode
              ("<html>" +:+ LF +:+ "<head><title>U</title>" +:+ LF +:+ "</head></html>" +:+ LF
               +:+ "<nattramn-router><p>x</p></nattramn-router>" +:+ LF
               +:+ "<html><head></head></html>").
Proof.
  intros page.
  apply (markerless_template_twice (request "/") page (Demo.config None_ [page])
           {| head := Some "<title>U</title>"; body := "<p>x</p>"; pd_headers := None |}
           eq_refl "<html>" "</head></html>" "<title>U</title>" []);
    [reflexivity|reflexivity|discriminate|reflexivity|reflexivity|reflexivity|reflexivity].
Defined.



(** ** Routes and their parameters *)

Section Routes.

Lemma includes_unit_append d x y :
  includes (String d EmptyString) (x +:+ y)
  = includes (String d EmptyString) x || includes (String d EmptyString) y.
Proof.
  induction x as [|c x IH]; [by rewrite append_nil_l|].
  rewrite append_cons.
  change (includes (String d EmptyString) (String c (x +:+ y)))
    with (startsWith (String d EmptyString) (String c (x +:+ y))
          || includes (String d EmptyString) (x +:+ y)).
  change (includes (String d EmptyString) (String c x))
    with (startsWith (String d EmptyString) (String c x)
          || includes (String d EmptyString) x).
  by rewrite !startsWith_unit_cons, IH, orb_assoc.
Qed.

(** No piece of a split holds the separating code unit. *)
Lemma split_unit_pieces d s :
  Forall (fun piece => includes (String d EmptyString) piece = false)
    (split (String d EmptyString) s).
Proof.
  unfold split. induction s as [|c s IH]; [by repeat constructor|].
  rewrite split_from_cons, startsWith_unit_cons.
  case_bool_decide as Hdc; [by constructor|].
  pose proof (split_from_nonempty (String d EmptyString) s) as Hne.
  destruct (split_from (String d EmptyString) 0 s) as [|piece rest]; [done|].
  apply Forall_cons in IH as [Hpiece Hrest]. constructor; [|done].
  change (includes (String d EmptyString) (String c piece))
    with (startsWith (String d EmptyString) (String c piece)
          || includes (String d EmptyString) piece).
  by rewrite startsWith_unit_cons, bool_decide_eq_false_2, Hpiece.
Qed.

Lemma join_cons sep x rest :
  rest <> [] -> join sep (x :: rest) = render x +:+ sep +:+ join sep rest.
Proof. by destruct rest. Qed.

(** [s.split(sep).join(sep)] is [s]. *)
Lemma join_split sep s :
  sep <> EmptyString -> join sep (Some <$> split sep s) = s.
Proof.
  intros Hsep. remember (String.length s) as n eqn:Hn. revert s Hn.
  induction n as [n IH] using lt_wf_ind. intros s ->.
  destruct (Z.eq_dec (indexOf sep s) (-1)%Z) as [Habsent|Hfound].
  - by rewrite split_absent.
  - apply indexOf_found in Hfound as (a & r & -> & Hi).
    rewrite split_first by done. rewrite fmap_cons, join_cons.
    + simpl render. rewrite (IH (String.length r)); [done| |done].
      rewrite !length_append. destruct sep; [done|]. simpl. lia.
    + destruct sep as [|d sep]; [done|]. unfold split.
      pose proof (split_from_nonempty (String d sep) r).
      by destruct (split_from (String d sep) 0 r).
Qed.

(** Matching, segment by segment. *)
Lemma canHandleRoute_Forall2 req route :
  canHandleRoute req route = true <->
  Forall2 (fun value segment => includes ":" value = true \/ value = segment)
    (split "/" route) (split "/" (pathname (reqToURL req))).
Proof.
  unfold canHandleRoute.
  set (requestURL := split "/" (pathname (reqToURL req))).
  set (routeURL := split "/" route).
  set (test := fun (index : nat) (value : string) =>
                 if includes ":" value then true
                 else bool_decide (requestURL !! index = Some value)).
  rewrite andb_true_iff, !bool_decide_eq_true, Forall2_same_length_lookup.
  assert (Hfilter : length (filter (fun b : bool => b) (imap test routeURL)) = length routeURL
                    <-> forall i (b : bool), imap test routeURL !! i = Some b -> b).
  { rewrite <- (length_imap test routeURL).
    by rewrite filter_length_Forall, Forall_lookup. }
  destruct Hfilter as [Hforward Hbackward]. split.
  - intros [Hall Hlen]. split; [congruence|].
    pose proof (Hforward Hall) as Htests. clear Hall.
    intros i value segment Hv Hs. pose proof (Htests i (test i value)) as Hall.
    rewrite list_lookup_imap, Hv in Hall. specialize (Hall eq_refl).
    unfold test in Hall. destruct (includes ":" value); [by left|right].
    apply bool_decide_unpack in Hall. congruence.
  - intros [Hlen Hall].
    assert (length (filter (fun b : bool => b) (imap test routeURL)) = length routeURL)
      as Hmatches; [|split; congruence].
    apply Hbackward. intros i b. rewrite list_lookup_imap.
    destruct (routeURL !! i) as [value|] eqn:Hv; [|done]. intros [= <-].
    destruct (lookup_lt_is_Some_2 requestURL i) as [segment Hs].
    { rewrite <- Hlen. by eapply lookup_lt_Some. }
    unfold test. destruct (Hall i value segment Hv Hs) as [->| ->]; [done|].
    destruct (includes ":" segment); [done|]. by apply bool_decide_pack.
Qed.

(** X6: a route without a colon matches exactly the requests for the path
    equal to it. *)
Theorem literal_route_matches_itself (req : ServerRequest) (route : string) :
  includes ":" route = false ->
  (canHandleRoute req route = true <-> pathname (reqToURL req) = route).
Proof.
  intros Hliteral. rewrite canHandleRoute_Forall2.
  assert (Forall (fun value => includes ":" value = false) (split "/" route)) as Hsegments.
  { rewrite <- (join_split "/" route) in Hliteral by done.
    pose proof (split_from_nonempty "/" route) as Hne.
    change (split_from "/" 0 route) with (split "/" route) in Hne.
    induction (split "/" route) as [|value rest IH]; [done|].
    destruct rest as [|value' rest].
    - by repeat constructor.
    - rewrite fmap_cons, join_cons in Hliteral by done. simpl render in Hliteral.
      rewrite !includes_unit_append in Hliteral.
      apply orb_false_elim in Hliteral as [Hvalue Hrest].
      apply orb_false_elim in Hrest as [_ Hrest].
      constructor; [done|]. by apply IH. }
  split.
  - intros Hmatch.
    assert (split "/" route = split "/" (pathname (reqToURL req))) as Heq.
    { apply list_eq_Forall2. revert Hsegments.
      induction Hmatch as [|value segment l k [Hcolon| ->] _ IH]; [done|..];
        intros [Hvalue Hl]%Forall_cons; [congruence|].
      constructor; [done|by apply IH]. }
    by rewrite <- (join_split "/" (pathname (reqToURL req))), <- Heq, join_split.
  - intros ->. apply Forall2_same_length_lookup. split; [done|].
    intros i value segment Hv Hs. right. congruence.
Qed.

(** X7: for a request that a route matches, no parameter is undefined:
    every value is a segment of the request path, and holds no slash;
    every name is non-empty and holds neither a colon nor a slash. *)
Theorem matched_params_defined (req : ServerRequest) (route : string) :
  canHandleRoute req route = true ->
  forall key value,
    routeParams req route !! key = Some value ->
    exists segment,
      value = Some segment
      /\ segment ∈ split "/" (pathname (reqToURL req))
      /\ includes "/" segment = false
      /\ key <> EmptyString
      /\ includes ":" key = false
      /\ includes "/" key = false.
Proof.
  intros Hmatch%canHandleRoute_Forall2%Forall2_length key value Hentry.
  apply reduce_params_lookup in Hentry as (Hkey & i & curr & Hi & Hname & -> & _).
  destruct (lookup_lt_is_Some_2 (split "/" (pathname (reqToURL req))) i) as [segment Hs].
  { rewrite <- Hmatch. by eapply lookup_lt_Some. }
  exists segment. split; [done|].
  assert (segment ∈ split "/" (pathname (reqToURL req))) as Hin
    by by eapply list_elem_of_lookup_2.
  split; [done|]. split.
  { pose proof (split_unit_pieces "/" (pathname (reqToURL req))) as Hpieces.
    rewrite Forall_forall in Hpieces. by apply Hpieces. }
  split; [done|].
  apply keyname_spec in Hname as (a & b & Hcurr & _ & Hcolon & _).
  split; [done|].
  pose proof (split_unit_pieces "/" route) as Hpieces.
  rewrite Forall_forall in Hpieces.
  assert (includes "/" curr = false) as Hslash
    by by eapply Hpieces, list_elem_of_lookup_2.
  rewrite Hcurr, !includes_unit_append in Hslash.
  apply orb_false_elim in Hslash as [_ Hslash].
  apply orb_false_elim in Hslash as [_ Hslash].
  by apply orb_false_elim in Hslash as [Hslash _].
Qed.

End Routes.

Lemma literal_route_matches_itself_witness :
  canHandleRoute (request "/about/team") "/about/team" = true
  <-> pathname (reqToURL (request "/about/team")) = "/about/team".
Proof. apply (literal_route_matches_itself (request "/about/team") "/about/team"). reflexivity. Defined.

Lemma matched_params_defined_witness :
  exists segment,
    Some "123" = Some segment
    /\ segment ∈ split "/" (pathname (reqToURL (request "/users/123")))
    /\ includes "/" segment = false
    /\ "id" <> EmptyString
    /\ includes ":" "id" = false
    /\ includes "/" "id" = false.
Proof.
  apply (matched_params_defined (request "/users/123") "/users/:id" eq_refl "id" (Some "123")).
  reflexivity.
Defined.

(** ** Dispatching a request *)

Section Dispatch.

Context `{Platform}.

Lemma find_first {A} (f : A -> bool) (before : list A) (x : A) (after : list A) :
  Forall (fun y => f y = false) before -> f x = true ->
  List.find f (before ++ x :: after) = Some x.
Proof.
  intros Hbefore Hx. induction Hbefore as [|y before Hy _ IH]; simpl.
  - by rewrite Hx.
  - by rewrite Hy.
Qed.

Lemma find_nowhere {A} (f : A -> bool) (l : list A) :
  Forall (fun y => f y = false) l -> List.find f l = None.
Proof. intros Hl. induction Hl as [|y l Hy _ IH]; simpl; [done|by rewrite Hy]. Qed.

(** X8: the first page whose route matches handles the request: pages
    before it that do not match are passed over, pages after it are not
    looked at, whether they match or not. *)
Theorem first_matching_page_wins config req before page after matched w :
  String_match (pathname (reqToURL req))
    (default EmptyString (cfg_serveStatic (server config))) = Returned matched ->
  extname (pathname (reqToURL req)) = EmptyString ->
  pages (router config) = before ++ page :: after ->
  Forall (fun earlier => canHandleRoute req (route earlier) = false) before ->
  canHandleRoute req (route page) = true ->
  handleRequest config req w = proxy req page config w.
Proof.
  intros Hmatch Hext Hpages Hbefore Hpage.
  unfold handleRequest; run_async. rewrite Hmatch, Hext, Hpages.
  rewrite bool_decide_eq_true_2 by done. cbn [negb].
  by rewrite (find_first (fun page => canHandleRoute req (route page))).
Qed.

(** X9: a request whose path has no extension and which no page's route
    matches is answered with one response: status 404, the body
    [Not Found], no headers. *)
Theorem unrouted_request_not_found config req matched w :
  String_match (pathname (reqToURL req))
    (default EmptyString (cfg_serveStatic (server config))) = Returned matched ->
  extname (pathname (reqToURL req)) = EmptyString ->
  Forall (fun page => canHandleRoute req (route page) = false) (pages (router config)) ->
  handleRequests_step config req w
  = (Returned tt,
     w ++ [ {| resp_status := Some 404; resp_body := Some (BodyString "Not Found");
               resp_headers := None |} ]).
Proof.
  intros Hmatch Hext Hpages.
  apply (handleRequests_step_thrown _ _ "Could not find route.").
  unfold handleRequest; run_async. rewrite Hmatch, Hext.
  rewrite bool_decide_eq_true_2 by done. cbn [negb].
  by rewrite (find_nowhere (fun page => canHandleRoute req (route page))).
Qed.

(** X10: a handler that throws, or that returns no page data, makes the
    answer the 404 response, alone: nothing of the template is sent. *)
Theorem handler_failure_not_found config req page matched result w :
  String_match (pathname (reqToURL req))
    (default EmptyString (cfg_serveStatic (server config))) = Returned matched ->
  extname (pathname (reqToURL req)) = EmptyString ->
  List.find (fun page => canHandleRoute req (route page)) (pages (router config))
  = Some page ->
  handler page req (routeParams req (route page)) = result ->
  (forall pageData, result <> Returned (Some pageData)) ->
  handleRequests_step config req w
  = (Returned tt,
     w ++ [ {| resp_status := Some 404; resp_body := Some (BodyString "Not Found");
               resp_headers := None |} ]).
Proof.
  intros Hmatch Hext Hfind Hresult Hfails.
  assert (exists e, handleRequest config req w = (Thrown e, w)) as [e He].
  { unfold handleRequest; run_async. rewrite Hmatch, Hext, Hfind.
    rewrite bool_decide_eq_true_2 by done. cbn [negb].
    unfold proxy; run_async. rewrite Hresult.
    destruct result as [[pageData|]|e]; [by destruct (Hfails pageData)|by eexists..]. }
  by apply (handleRequests_step_thrown _ _ e).
Qed.

(** A request whose path has an extension (and is not the client bundle)
    always goes to the file system: the file is the path itself if the
    static pattern matches the path, and the path below the static prefix
    if not. *)
Lemma handleRequest_extension config req matched w :
  String_match (pathname (reqToURL req))
    (default EmptyString (cfg_serveStatic (server config))) = Returned matched ->
  extname (pathname (reqToURL req)) <> EmptyString ->
  pathname (reqToURL req) <> "/nattramn-client.js" ->
  handleRequest config req w
  = serveStatic req
      (if matched then pathname (reqToURL req)
       else "/" +:+ default EmptyString (cfg_serveStatic (server config))
            +:+ pathname (reqToURL req))
      (server config) w.
Proof.
  intros Hmatch Hext Hbundle.
  unfold handleRequest; run_async. rewrite Hmatch.
  rewrite !bool_decide_eq_false_2 by done. cbn [negb].
  destruct matched; [done|].
  destruct (cfg_serveStatic (server config)) as [[|c prefix]|]; [| done |].
  - simpl in Hmatch. by rewrite String_match_empty in Hmatch.
  - simpl in Hmatch. by rewrite String_match_empty in Hmatch.
Qed.

Lemma getContentType_truthy path :
  truthy (getContentType path) = bool_decide (is_Some (getContentType path)).
Proof.
  unfold getContentType, MEDIA_TYPES. simpl.
  repeat (case_bool_decide; [done|]). done.
Qed.

(** X11: what a static file is served with: status 200, the bytes of the
    file, and a content type if and only if the extension of the file is
    in the media-type table, and no other header; a file that cannot be
    read makes [serveStatic] throw.  Nothing is written on the connection. *)
Theorem serveStatic_response req filePath serverConfig w :
  serveStatic req filePath serverConfig w
  = match Deno_readFile ("." +:+ filePath) with
    | Returned content =>
        (Returned {| pr_status := 200; pr_body := content;
                     pr_headers :=
                       match getContentType ("." +:+ filePath) with
                       | Some type => {[ "content-type" := type ]}
                       | None => ∅
                       end |}, w)
    | Thrown e => (Thrown e, w)
    end.
Proof.
  unfold serveStatic; run_async.
  destruct (Deno_readFile ("." +:+ filePath)) as [content|e]; [|done].
  rewrite getContentType_truthy.
  destruct (getContentType ("." +:+ filePath)) as [type|] eqn:Htype.
  - rewrite bool_decide_eq_true_2 by done. unfold Headers.set, Headers.new. simpl.
    by rewrite insert_empty.
  - by rewrite bool_decide_eq_false_2 by by intros [? ?].
Qed.

(** X12: a request for a file that cannot be read is answered with the
    404 response alone. *)
Theorem unreadable_file_not_found config req matched e w :
  String_match (pathname (reqToURL req))
    (default EmptyString (cfg_serveStatic (server config))) = Returned matched ->
  extname (pathname (reqToURL req)) <> EmptyString ->
  pathname (reqToURL req) <> "/nattramn-client.js" ->
  Deno_readFile
    ("." +:+ (if matched then pathname (reqToURL req)
              else "/" +:+ default EmptyString (cfg_serveStatic (server config))
                   +:+ pathname (reqToURL req))) = Thrown e ->
  handleRequests_step config req w
  = (Returned tt,
     w ++ [ {| resp_status := Some 404; resp_body := Some (BodyString "Not Found");
               resp_headers := None |} ]).
Proof.
  intros Hmatch Hext Hbundle Hfile.
  apply (handleRequests_step_thrown _ _ e).
  rewrite (handleRequest_extension _ _ _ _ Hmatch Hext Hbundle).
  unfold serveStatic; run_async. by rewrite Hfile.
Qed.


(** X14: a static prefix that is no regular expression makes every
    request fail, page routes included: the pattern is matched against
    the path before anything else is looked at. *)
Theorem bad_pattern_fails_every_request config req e w :
  String_match (pathname (reqToURL req))
    (default EmptyString (cfg_serveStatic (server config))) = Thrown e ->
  handleRequests_step config req w
  = (Returned tt,
     w ++ [ {| resp_status := Some 404; resp_body := Some (BodyString "Not Found");
               resp_headers := None |} ]).
Proof.
  intros Hmatch. apply (handleRequests_step_thrown _ _ e).
  unfold handleRequest; run_async. by rewrite Hmatch.
Qed.

End Dispatch.

Lemma first_matching_page_wins_witness :
  let about := Demo.page "/about" "<nattramn-router></nattramn-router>" None "about" in
  let by_id := Demo.page "/users/:id" "<nattramn-router></nattramn-router>" None "by id" in
  let by_name := Demo.page "/users/:name" "<nattramn-router></nattramn-router>" None "by name" in
  let config := Demo.config None_ [about; by_id; by_name] in
  @handleRequest Demo.platform config (request "/users/7") []
  = proxy (request "/users/7") by_id config [].
Proof.
  intros about by_id by_name config.
  apply (@first_matching_page_wins Demo.platform config (request "/users/7")
           [about] by_id [by_name] true []);
    [reflexivity|reflexivity|reflexivity|by repeat constructor|reflexivity].
Defined.

Lemma unrouted_request_not_found_witness :
  let about := Demo.page "/about" "<nattramn-router></nattramn-router>" None "about" in
  @handleRequests_step Demo.platform (Demo.config None_ [about]) (request "/contact") []
  = (Returned tt,
     [] ++ [ {| resp_status := Some 404; resp_body := Some (BodyString "Not Found");
                resp_headers := None |} ]).
Proof.
  intros about.
  apply (@unrouted_request_not_found Demo.platform (Demo.config None_ [about])
           (request "/contact") true []);
    [reflexivity|reflexivity|by repeat constructor].
Defined.

Lemma handler_failure_not_found_witness :
  let broken := Fixture.page "/" "<html><nattramn-router></nattramn-router></html>"
                  (Thrown "no database") in
  @handleRequests_step Demo.platform (Demo.config None_ [broken]) (request "/") []
  = (Returned tt,
     [] ++ [ {| resp_status := Some 404; resp_body := Some (BodyString "Not Found");
                resp_headers := None |} ]).
Proof.
  intros broken.
  apply (@handler_failure_not_found Demo.platform (Demo.config None_ [broken])
           (request "/") broken true (Thrown "no database") []);
    [reflexivity|reflexivity|reflexivity|reflexivity|discriminate].
Defined.

Lemma unreadable_file_not_found_witness :
  let platform := Fixture.platform [] (Thrown "offline") in
  @handleRequests_step platform (Fixture.config None (Some "public") []) (request "/app.js") []
  = (Returned tt,
     [] ++ [ {| resp_status := Some 404; resp_body := Some (BodyString "Not Found");
                resp_headers := None |} ]).
Proof.
  intros platform.
  apply (@unreadable_file_not_found platform (Fixture.config None (Some "public") [])
           (request "/app.js") false "NotFound" []);
    [reflexivity|discriminate|discriminate|reflexivity].
Defined.


Lemma bad_pattern_fails_every_request_witness :
  let home := Demo.page "/" "<html><nattramn-router></nattramn-router></html>"
                (Some "<title>Home</title>") "<p>hi</p>" in
  @handleRequests_step (Fixture.platform [] (Thrown "offline"))
    (Fixture.config None (Some "(") [home]) (request "/") []
  = (Returned tt,
     [] ++ [ {| resp_status := Some 404; resp_body := Some (BodyString "Not Found");
                resp_headers := None |} ]).
Proof.
  intros home.
  apply (@bad_pattern_fails_every_request (Fixture.platform [] (Thrown "offline"))
           (Fixture.config None (Some "(") [home]) (request "/") "SyntaxError" []).
  reflexivity.
Defined.

(** ** Finalising and answering *)

Section Finalisation.

Context `{Platform}.

(** X15: the ETag of a response is the hash of the body as [handleRequest]
    returned it, that is, before compression, and it replaces an ETag of
    the handler's; the Cache-Control header is the handler's own if it
    gave one, and [public, max-age=3600] otherwise. *)
Theorem etag_and_cache_control config req r w w' :
  handleRequest config req w = (Returned r, w') ->
  exists headers body,
    handleRequests_step config req w
    = (Returned tt,
       w' ++ [ {| resp_body := Some (BodyBytes body);
                  resp_status := Some (pr_status r);
                  resp_headers := Some headers |} ])
    /\ Headers.get "ETag" headers = Some (Sha1_hex (pr_body r))
    /\ Headers.get "Cache-Control" headers
       = Some (default "public, max-age=3600" (Headers.get "Cache-Control" (pr_headers r))).
Proof.
  intros Heq. rewrite (handleRequests_step_returned _ _ _ _ _ Heq).
  eexists _, _. split; [reflexivity|].
  assert (Headers.get "Cache-Control"
            (Headers.set "ETag" (Sha1_hex (pr_body r)) (pr_headers r))
          = Headers.get "Cache-Control" (pr_headers r)) as Hcc
    by by apply Headers_get_set_ne.
  rewrite Hcc.
  destruct (useGzip config req), (useBrotli config req);
    rewrite !(Headers_get_set_ne _ "Content-Length") by done;
    rewrite ?(Headers_get_set_ne _ "Content-Encoding") by done;
    (case_bool_decide as Hnone;
     [ rewrite (Headers_get_set_ne "ETag" "Cache-Control") by done;
       rewrite !Headers_get_set_eq by done; by rewrite Hnone
     | rewrite Headers_get_set_eq by done; rewrite Hcc;
       by destruct (Headers.get "Cache-Control" (pr_headers r)) ]).
Qed.

(** X16: finalising touches four headers only: every header that is not
    ETag, Cache-Control, Content-Encoding or Content-Length reaches the
    client as [handleRequest] returned it. *)
Theorem other_headers_untouched config req r w w' :
  handleRequest config req w = (Returned r, w') ->
  exists headers body,
    handleRequests_step config req w
    = (Returned tt,
       w' ++ [ {| resp_body := Some (BodyBytes body);
                  resp_status := Some (pr_status r);
                  resp_headers := Some headers |} ])
    /\ forall name,
         Headers.toLowerCase name <> "etag" ->
         Headers.toLowerCase name <> "cache-control" ->
         Headers.toLowerCase name <> "content-encoding" ->
         Headers.toLowerCase name <> "content-length" ->
         Headers.get name headers = Headers.get name (pr_headers r).
Proof.
  intros Heq. rewrite (handleRequests_step_returned _ _ _ _ _ Heq).
  eexists _, _. split; [reflexivity|].
  intros name Hetag Hcc Hce Hcl.
  destruct (useGzip config req), (useBrotli config req);
    rewrite !Headers_get_set_ne by done;
    case_bool_decide; by rewrite ?Headers_get_set_ne by done.
Qed.

(** X17: building the server.  A configuration that names a compression
    method is kept as it is; one that names none gets brotli, and keeps
    its static prefix and its pages; building twice changes nothing more.
    So a server configured without a method compresses with brotli
    whenever the request accepts [br], and never with gzip. *)
Theorem default_method_is_brotli (config : Config) (req : ServerRequest) :
  Nattramn (Nattramn config) = Nattramn config
  /\ compression (server (Nattramn config)) <> None
  /\ (forall method, compression (server config) = Some method -> Nattramn config = config)
  /\ cfg_serveStatic (server (Nattramn config)) = cfg_serveStatic (server config)
  /\ router (Nattramn config) = router config
  /\ (compression (server config) = None ->
      useBrotli (Nattramn config) req = accept_encoding_includes req "br"
      /\ useGzip (Nattramn config) req = false).
Proof.
  unfold Nattramn. destruct config as [[[method|] prefix] routes]; simpl.
  - repeat split; done.
  - repeat split; done.
Qed.

(** What [handleRequest] writes itself: nothing, or the pre-fragment alone. *)
Lemma proxy_writes req page config w o w' :
  proxy req page config w = (o, w') ->
  w' = w
  \/ exists pre, w' = w ++ [ {| resp_status := None; resp_headers := None;
                               resp_body := Some (BodyString pre) |} ].
Proof.
  destruct (handler page req (routeParams req (route page))) as [[pageData|]|e] eqn:Hhandler.
  - rewrite (proxy_handled _ _ _ _ Hhandler). intros [= <- <-].
    destruct (generatePreContent (template page) (partialContent req)) as [[|c pre]|];
      destruct (truthy (head pageData)); simpl;
      first [by left; rewrite app_nil_r | right; by eexists].
  - unfold proxy; run_async. rewrite Hhandler. intros [= <- <-]. by left.
  - unfold proxy; run_async. rewrite Hhandler. intros [= <- <-]. by left.
Qed.

Lemma handleRequest_writes config req w o w' :
  handleRequest config req w = (o, w') ->
  w' = w
  \/ exists pre, w' = w ++ [ {| resp_status := None; resp_headers := None;
                               resp_body := Some (BodyString pre) |} ].
Proof.
  unfold handleRequest; run_async. intros Heq.
  repeat case_match; simplify_eq;
    try (apply serveStatic_outcome in Heq as [_ ->]);
    try (by eapply proxy_writes); by left.
Qed.

(** X18: every request the server yields is answered, in order: with one
    response, or with two when the pre-fragment of a page without head
    went out first; the last response of a request carries status 200 or
    status 404. *)
Theorem every_request_answered config server :
  length (handleRequests config server) = length server
  /\ Forall (fun responses =>
               exists written final,
                 responses = written ++ [final]
                 /\ length written <= 1
                 /\ (resp_status final = Some 200 \/ resp_status final = Some 404))
       (handleRequests config server).
Proof.
  unfold handleRequests. split; [by rewrite length_fmap|].
  apply Forall_fmap, Forall_forall. intros req _. simpl.
  destruct (handleRequest config req []) as [[r|e] w'] eqn:Heq.
  - rewrite (handleRequests_step_returned _ _ _ _ _ Heq). simpl.
    apply handleRequest_outcome in Heq as Hstatus. destruct Hstatus as [Hr _].
    eexists w', _. split; [reflexivity|]. split.
    + by apply handleRequest_writes in Heq as [->|[pre ->]]; simpl; lia.
    + left. simpl. by rewrite (Hr r).
  - rewrite (handleRequests_step_thrown _ _ _ _ _ Heq). simpl.
    eexists w', _. split; [reflexivity|]. split.
    + by apply handleRequest_writes in Heq as [->|[pre ->]]; simpl; lia.
    + by right.
Qed.

(** X19: a request whose path has an extension (and is not the client
    bundle) and whose file can be read is answered with that file, never
    by a page and never with the not-found branch of the dispatcher.  The
    file is the path itself, below the working directory, if the static
    pattern matches the path, and the path below the static prefix if
    not; the one response has status 200, the bytes of the file (encoded
    as negotiated) and the content type the media-type table gives for
    the extension, or none. *)
Theorem static_file_served config req matched content w :
  String_match (pathname (reqToURL req))
    (default EmptyString (cfg_serveStatic (server config))) = Returned matched ->
  extname (pathname (reqToURL req)) <> EmptyString ->
  pathname (reqToURL req) <> "/nattramn-client.js" ->
  let file :=
    "." +:+ (if matched then pathname (reqToURL req)
             else "/" +:+ default EmptyString (cfg_serveStatic (server config))
                  +:+ pathname (reqToURL req)) in
  Deno_readFile file = Returned content ->
  exists headers,
    handleRequests_step config req w
    = (Returned tt,
       w ++ [ {| resp_body :=
                   Some (BodyBytes
                           ((if useBrotli config req then brotliEncode else id)
                              ((if useGzip config req then gzipEncode else id) content)));
                 resp_status := Some 200;
                 resp_headers := Some headers |} ])
    /\ Headers.get "Content-Type" headers = getContentType file.
Proof.
  intros Hmatch Hext Hbundle file Hfile.
  assert (handleRequest config req w
          = (Returned {| pr_status := 200; pr_body := content;
                         pr_headers :=
                           if truthy (getContentType file)
                           then Headers.set "content-type"
                                  (default EmptyString (getContentType file)) (Headers.new None)
                           else Headers.new None |}, w)) as Hserved.
  { rewrite (handleRequest_extension _ _ _ _ Hmatch Hext Hbundle).
    unfold serveStatic; run_async. fold file. by rewrite Hfile. }
  rewrite (handleRequests_step_returned _ _ _ _ _ Hserved). cbn [pr_body pr_status pr_headers].
  rewrite getContentType_truthy.
  destruct (useGzip config req), (useBrotli config req);
    (eexists; split; [reflexivity|]);
    (destruct (getContentType file) as [mime|] eqn:Hmime;
     [ rewrite (bool_decide_eq_true_2 (is_Some (Some mime))) by done
     | rewrite (bool_decide_eq_false_2 (is_Some None)) by (by intros [? ?]) ]);
    rewrite !Headers_get_set_ne by done;
    (case_bool_decide; rewrite ?Headers_get_set_ne by done);
    by rewrite ?Headers_get_set_eq.
Qed.


End Finalisation.

Section TemplateEdges.

(** X21: a template with a second close marker.  The post-fragment is the
    text between the first close marker and the second: what follows the
    second close marker is left out of every full page. *)
Theorem post_fragment_ends_at_second_marker (a b c : string) :
  indexOf "</nattramn-router>" (a +:+ "</nattramn-router>" +:+ b +:+ "</nattramn-router>" +:+ c)
  = Z.of_nat (String.length a) ->
  indexOf "</nattramn-router>" (b +:+ "</nattramn-router>" +:+ c)
  = Z.of_nat (String.length b) ->
  generatePostContent
    (a +:+ "</nattramn-router>" +:+ b +:+ "</nattramn-router>" +:+ c) false
  = Some b.
Proof.
  intros Hfirst Hsecond. unfold generatePostContent.
  rewrite Hfirst, split_first by done. rewrite split_first by done.
  by destruct (Z.eqb_spec (Z.of_nat (String.length a)) (-1)); [lia|].
Qed.

End TemplateEdges.

Lemma etag_and_cache_control_witness :
  let pageData :=
    {| head := None; body := "{}";
       pd_headers := Some (Headers.set "Cache-Control" "no-store"
                             (Headers.set "ETag" "mine" ∅)) |} in
  let page := Fixture.page "/" "<nattramn-router></nattramn-router>"
                (Returned (Some pageData)) in
  let req := Fixture.request "/" [("Accept-Encoding", "gzip")] in
  exists r headers body,
    @handleRequest Demo.platform (Demo.config Gzip [page]) req [] = (Returned r, [])
    /\ @handleRequests_step Demo.platform (Demo.config Gzip [page]) req []
       = (Returned tt,
          [] ++ [ {| resp_body := Some (BodyBytes body);
                     resp_status := Some (pr_status r);
                     resp_headers := Some headers |} ])
    /\ Headers.get "ETag" headers = Some (@Sha1_hex Demo.platform (pr_body r))
    /\ Headers.get "Cache-Control" headers = Some "no-store".
Proof.
  intros pageData page req. eexists.
  destruct (@etag_and_cache_control Demo.platform (Demo.config Gzip [page]) req _ [] []
              eq_refl) as (headers & body & Hstep & Hetag & Hcc).
  exists headers, body. split; [reflexivity|]. split; [exact Hstep|].
  split; [exact Hetag|exact Hcc].
Defined.

Lemma other_headers_untouched_witness :
  let page := Demo.page "/" "<html><nattramn-router></nattramn-router></html>"
                (Some "<title>Home</title>") "<p>hi</p>" in
  exists r headers body,
    @handleRequest Demo.platform (Demo.config None_ [page]) (partial_request "/") []
    = (Returned r, [])
    /\ @handleRequests_step Demo.platform (Demo.config None_ [page]) (partial_request "/") []
       = (Returned tt,
          [] ++ [ {| resp_body := Some (BodyBytes body);
                     resp_status := Some (pr_status r);
                     resp_headers := Some headers |} ])
    /\ Headers.get "X-Header-Updates" headers = Some "eyJ0aXRsZSI6IkhvbWUifQ=="
    /\ Headers.get "Content-Type" headers = Some "text/html".
Proof.
  intros page. eexists.
  destruct (@other_headers_untouched Demo.platform (Demo.config None_ [page])
              (partial_request "/") _ [] [] eq_refl) as (headers & body & Hstep & Hsame).
  exists headers, body. split; [reflexivity|]. split; [exact Hstep|]. split.
  - rewrite (Hsame "X-Header-Updates"); [reflexivity|discriminate..].
  - rewrite (Hsame "Content-Type"); [reflexivity|discriminate..].
Defined.

Lemma post_fragment_ends_at_second_marker_witness :
  generatePostContent
    ("<nattramn-router>x" +:+ "</nattramn-router>" +:+ "<aside>" +:+ "</nattramn-router>"
     +:+ "<footer>") false
  = Some "<aside>".
Proof.
  apply (post_fragment_ends_at_second_marker "<nattramn-router>x" "<aside>" "<footer>");
    reflexivity.
Defined.

(** The path [/app.js] with the static prefix [public] is read from
    [./public/app.js]. *)
Lemma static_file_served_witness :
  let platform := Fixture.platform [("./public/app.js", "run()")] (Thrown "offline") in
  let config := Fixture.config (Some None_) (Some "public") [] in
  exists headers,
    @handleRequests_step platform config (request "/app.js") []
    = (Returned tt,
       [] ++ [ {| resp_body := Some (BodyBytes (TextEncoder_encode "run()"));
                  resp_status := Some 200;
                  resp_headers := Some headers |} ])
    /\ Headers.get "Content-Type" headers = Some "application/javascript".
Proof.
  intros platform config.
  apply (@static_file_served platform config (request "/app.js") false
           (TextEncoder_encode "run()") []);
    [reflexivity|discriminate|discriminate|reflexivity].
Defined.

